(** * NeuralTrade ML engine: signal prediction and FMEA risk assessment

    A shallow embedding of the decision logic of [services/ml-engine/app]:
    - [schemas/signal.py]         (module [signal]),
    - [config.py]                 (module [config]),
    - [models/signal_predictor.py] (module [signal_predictor]),
    - [services/risk_assessor.py]  (module [risk_assessor]),
    over a small model of the Python and NumPy operations they use (modules
    [py] and [np]).  Module [requests] holds the requests the validators
    accept and the sample windows, module [statements] the notions the
    theorems are stated with; the properties follow.

    Numbers.  Python and NumPy floats are modelled by exact rationals [Q]:
    finite values, no rounding.  The one non-finite value the code can create
    from finite candles, the [nan] that [np.mean] returns on an empty array,
    is kept ([np.float64]).  Equality of rationals is [Qeq] ([==]).

    Effects.  A Python exception is a [Raise] in [result]; the mutable
    [RiskAssessor] instance is threaded through a state-and-exception monad;
    the clock read by [assess] is an argument; logging is left out. *)

From Stdlib Require Import String Ascii List ZArith QArith Qabs Qminmax Bool Lia Lqa.
Import ListNotations.
Open Scope Q_scope.

(** ** Python runtime *)

Module py.

Inductive exn : Type :=
| IndexError
| KeyError
| ValueError
| ZeroDivisionError
| ValidationError
| RuntimeError.

Inductive result (A : Type) : Type :=
| Ok (a : A)
| Raise (e : exn).
Arguments Ok {A} a.
Arguments Raise {A} e.

Definition bind {A B : Type} (r : result A) (k : A -> result B) : result B :=
  match r with
  | Ok a => k a
  | Raise e => Raise e
  end.

Definition Qltb (x y : Q) : bool := negb (Qle_bool y x).

(** [a / b] on Python floats. *)
Definition div (a b : Q) : result Q :=
  if Qeq_bool b 0 then Raise ZeroDivisionError else Ok (a / b).

(** [sum(l)]: left to right, starting from 0. *)
Definition sum (l : list Q) : Q := fold_left Qplus l 0.

(** [max(l)] of a non-empty list; [ValueError] on the empty one. *)
Definition max (l : list Q) : result Q :=
  match l with
  | [] => Raise ValueError
  | x :: xs => Ok (fold_left Qmax xs x)
  end.

(** [l[-n:]] for [n > 0]: the last [n] elements, all of [l] when it is shorter. *)
Definition last_n {A : Type} (n : nat) (l : list A) : list A :=
  skipn (length l - n) l.

(** [l[-1]]. *)
Definition last {A : Type} (l : list A) : result A :=
  match rev l with
  | [] => Raise IndexError
  | x :: _ => Ok x
  end.

(** [l[i]] for [i >= 0]. *)
Definition index {A : Type} (l : list A) (i : nat) : result A :=
  match nth_error l i with
  | Some x => Ok x
  | None => Raise IndexError
  end.

(** [[f(l[i-1], l[i]) for i in range(1, len(l))]], where [f] may raise. *)
Fixpoint pairwise {A B : Type} (f : A -> A -> result B) (l : list A) : result (list B) :=
  match l with
  | x :: ((y :: _) as tl) =>
      bind (f x y) (fun b => bind (pairwise f tl) (fun bs => Ok (b :: bs)))
  | _ => Ok []
  end.

(** An f-string, kept unrendered: literal text and the formatted fields. *)
Inductive piece : Type :=
| Lit (s : string)
| FmtInt (z : Z)                     (* {z} *)
| FmtFixed (digits : nat) (q : Q)    (* {q:.Nf} *)
| FmtPercent (digits : nat) (q : Q). (* {q:.N%} *)

Definition fstring : Type := list piece.

End py.

Import py.

Declare Scope result_scope.
Delimit Scope result_scope with result.
Notation "x <- e ;; k" := (py.bind e (fun x => k))
  (at level 61, e at next level, right associativity) : result_scope.
Notation "' p <- e ;; k" := (py.bind e (fun x => match x with p => k end))
  (at level 61, p pattern, e at next level, right associativity) : result_scope.

(** ** NumPy *)

Module np.

(** [np.float64] results: a finite value or [nan]. *)
Inductive float64 : Type :=
| Fin (q : Q)
| NaN.

Definition lift2 (f : Q -> Q -> Q) (a b : float64) : float64 :=
  match a, b with
  | Fin x, Fin y => Fin (f x y)
  | _, _ => NaN
  end.

Definition add : float64 -> float64 -> float64 := lift2 Qplus.
Definition sub : float64 -> float64 -> float64 := lift2 Qminus.
Definition mul : float64 -> float64 -> float64 := lift2 Qmult.
(** Only used behind the guard [b > 0]. *)
Definition div : float64 -> float64 -> float64 := lift2 Qdiv.

Definition abs (a : float64) : float64 :=
  match a with
  | Fin x => Fin (Qabs x)
  | NaN => NaN
  end.

(** [a > b]: false as soon as one side is [nan]. *)
Definition gt (a b : float64) : bool :=
  match a, b with
  | Fin x, Fin y => Qltb y x
  | _, _ => false
  end.

(** Equality of [float64] values up to the representation of the rational. *)
Definition eqv (a b : float64) : Prop :=
  match a, b with
  | Fin x, Fin y => x == y
  | _, _ => False
  end.

(** [np.roll(a, 1)]: every element moves one place right, the last wraps. *)
Definition roll1 {A : Type} (a : list A) : list A :=
  match rev a with
  | [] => []
  | x :: front => x :: rev front
  end.

(** [np.mean(a)]: [nan] (and a warning) on an empty array. *)
Definition mean (a : list Q) : float64 :=
  match a with
  | [] => NaN
  | _ => Fin (py.sum a / inject_Z (Z.of_nat (length a)))
  end.

(** [a.min()] and [a.max()]; only called on non-empty columns. *)
Definition min (a : list Q) : Q :=
  match a with
  | [] => 0
  | x :: xs => fold_left Qmin xs x
  end.

Definition max (a : list Q) : Q :=
  match a with
  | [] => 0
  | x :: xs => fold_left Qmax xs x
  end.

(** [np.argmax(a)]: the first index holding the maximum. *)
Fixpoint argmax_from (best_i : nat) (best : Q) (i : nat) (a : list Q) : nat :=
  match a with
  | [] => best_i
  | x :: xs =>
      if Qltb best x then argmax_from i x (S i) xs
      else argmax_from best_i best (S i) xs
  end.

Definition argmax (a : list Q) : result nat :=
  match a with
  | [] => Raise ValueError
  | x :: xs => Ok (argmax_from 0%nat x 1%nat xs)
  end.

End np.

Open Scope string_scope.
Open Scope list_scope.
Open Scope result_scope.

(** ** schemas/signal.py *)

Module signal.

Inductive Exchange : Type := BINANCE | COINBASE | KRAKEN | BYBIT | OKX | KUCOIN.

Inductive Timeframe : Type := M1 | M5 | M15 | H1 | H4 | D1.

Inductive SignalDirection : Type := LONG | SHORT | NEUTRAL.

Inductive RiskLevel : Type := LOW | MEDIUM | HIGH | CRITICAL.

Definition SignalDirection_eqb (a b : SignalDirection) : bool :=
  match a, b with
  | LONG, LONG | SHORT, SHORT | NEUTRAL, NEUTRAL => true
  | _, _ => false
  end.

(** [Field(gt=0)], [Field(ge=0)], [Field(ge=lo, le=hi)] on a float field. *)
Definition Field_gt (bound v : Q) : result Q :=
  if Qltb bound v then Ok v else Raise ValidationError.

Definition Field_ge (bound v : Q) : result Q :=
  if Qle_bool bound v then Ok v else Raise ValidationError.

Definition Field_ge_le (lo hi v : Q) : result Q :=
  if Qle_bool lo v && Qle_bool v hi then Ok v else Raise ValidationError.

(** [info.data] of a field validator: the fields validated so far, by name.
    Pydantic validates the fields in the order the class declares them. *)
Definition info_data : Type := list (string * Q).

Fixpoint lookup (k : string) (d : info_data) : option Q :=
  match d with
  | [] => None
  | (k', v) :: d' => if String.eqb k k' then Some v else lookup k d'
  end.

Record OHLCVData : Type := {
  timestamp : Z;
  open : Q;
  high : Q;
  low : Q;
  close : Q;
  volume : Q
}.

(** [@field_validator("high")]. *)
Definition high_must_be_highest (v : Q) (data : info_data) : result Q :=
  match lookup "low" data with
  | Some l => if Qltb v l then Raise ValidationError else Ok v
  | None => Ok v
  end.

(** [OHLCVData(timestamp=.., open=.., high=.., low=.., close=.., volume=..)]:
    each field is checked in declaration order and then added to [info.data]. *)
Definition OHLCVData_new (timestamp : Z) (open high low close volume : Q)
  : result OHLCVData :=
  let data := [("timestamp", inject_Z timestamp)] in
  o <- Field_gt 0 open ;;
  let data := data ++ [("open", o)] in
  h <- Field_gt 0 high ;;
  h <- high_must_be_highest h data ;;
  let data := data ++ [("high", h)] in
  l <- Field_gt 0 low ;;
  let data := data ++ [("low", l)] in
  c <- Field_gt 0 close ;;
  let data := data ++ [("close", c)] in
  v <- Field_ge 0 volume ;;
  Ok {| timestamp := timestamp; open := o; high := h; low := l;
        close := c; volume := v |}.

Record SignalRequest : Type := {
  exchange : Exchange;
  symbol : string;
  timeframe : Timeframe;
  candles : list OHLCVData;
  request_timestamp : Z
}.

(** One character of the class [[A-Z0-9]]. *)
Definition is_A_Z_0_9 (c : ascii) : bool :=
  let n := nat_of_ascii c in
  ((65 <=? n) && (n <=? 90) || (48 <=? n) && (n <=? 57))%nat.

(** [^[A-Z0-9]+$]. *)
Fixpoint all_A_Z_0_9 (s : string) : bool :=
  match s with
  | EmptyString => false
  | String c EmptyString => is_A_Z_0_9 c
  | String c s' => is_A_Z_0_9 c && all_A_Z_0_9 s'
  end.

(** [^[A-Z0-9]+/[A-Z0-9]+$], reading [base] up to the first slash. *)
Fixpoint symbol_pattern (base : bool) (s : string) : bool :=
  match s with
  | EmptyString => false
  | String c s' =>
      if Ascii.eqb c "/" then base && all_A_Z_0_9 s'
      else is_A_Z_0_9 c && symbol_pattern true s'
  end.

Fixpoint contains_slash (s : string) : bool :=
  match s with
  | EmptyString => false
  | String c s' => Ascii.eqb c "/" || contains_slash s'
  end.

(** [@field_validator("symbol")]. *)
Definition validate_symbol (v : string) : result string :=
  if contains_slash v then Ok v else Raise ValidationError.

(** [SignalRequest(...)]; the caller supplies [request_timestamp] (the default
    factory reads the clock). *)
Definition SignalRequest_new (exchange : Exchange) (symbol : string)
  (timeframe : Timeframe) (candles : list OHLCVData) (request_timestamp : Z)
  : result SignalRequest :=
  s <- (if symbol_pattern false symbol then Ok symbol else Raise ValidationError) ;;
  s <- validate_symbol s ;;
  cs <- (if (50 <=? List.length candles)%nat && (List.length candles <=? 500)%nat
         then Ok candles else Raise ValidationError) ;;
  Ok {| exchange := exchange; symbol := s; timeframe := timeframe;
        candles := cs; request_timestamp := request_timestamp |}.

Record RiskFactor : Type := {
  name : string;
  category : string;
  score : Q;
  description : fstring
}.

Definition RiskFactor_new (name category : string) (score : Q)
  (description : fstring) : result RiskFactor :=
  s <- Field_ge_le 0 10 score ;;
  Ok {| name := name; category := category; score := s;
        description := description |}.

Record RiskAssessment : Type := {
  risk_level : RiskLevel;
  risk_score : Q;
  severity_score : Q;
  occurrence_score : Q;
  detection_score : Q;
  factors : list RiskFactor;
  mitigations : list string;
  is_stale_data : bool;
  is_drift_detected : bool;
  is_shadow_model_agreed : bool
}.

Definition RiskAssessment_new (risk_level : RiskLevel)
  (risk_score severity_score occurrence_score detection_score : Q)
  (factors : list RiskFactor) (mitigations : list string)
  (is_stale_data is_drift_detected is_shadow_model_agreed : bool)
  : result RiskAssessment :=
  rpn <- Field_ge_le 0 1000 risk_score ;;
  s <- Field_ge_le 1 10 severity_score ;;
  o <- Field_ge_le 1 10 occurrence_score ;;
  d <- Field_ge_le 1 10 detection_score ;;
  Ok {| risk_level := risk_level; risk_score := rpn; severity_score := s;
        occurrence_score := o; detection_score := d; factors := factors;
        mitigations := mitigations; is_stale_data := is_stale_data;
        is_drift_detected := is_drift_detected;
        is_shadow_model_agreed := is_shadow_model_agreed |}.

End signal.

(** ** config.py *)

Module config.

Record Settings : Type := {
  ml_confidence_threshold : Q;
  risk_max_data_age_seconds : Z;
  risk_drift_threshold : Q
}.

(** The defaults of [Settings]. *)
Definition settings : Settings := {|
  ml_confidence_threshold := 0.85;
  risk_max_data_age_seconds := 5;
  risk_drift_threshold := 0.15
|}.

End config.

(** ** models/signal_predictor.py *)

Module signal_predictor.
Import signal.

(** A 2-d array, row by row. *)
Definition ndarray : Type := list (list Q).

(** A loaded network, seen from outside: features in, class probabilities
    out (or an exception). *)
Definition SignalPredictorNN : Type := ndarray -> result (list Q).

Record SignalPredictor : Type := {
  model : option SignalPredictorNN;
  shadow_model : option SignalPredictorNN;
  model_version : string
}.

(** [data[:, i]]. *)
Definition column (i : nat) (data : ndarray) : list Q :=
  map (fun row => nth i row 0) data.

Fixpoint set_nth (i : nat) (v : Q) (row : list Q) : list Q :=
  match row, i with
  | [], _ => []
  | _ :: xs, O => v :: xs
  | x :: xs, S i' => x :: set_nth i' v xs
  end.

(** [data[:, i] = col]. *)
Definition set_column (i : nat) (col : list Q) (data : ndarray) : ndarray :=
  map (fun rv => set_nth i (snd rv) (fst rv)) (combine data col).

(** The body of the loop over the columns. *)
Definition scale_column (data : ndarray) (i : nat) : ndarray :=
  let col := column i data in
  let min_val := np.min col in
  let max_val := np.max col in
  if Qltb min_val max_val
  then set_column i (map (fun x => (x - min_val) / (max_val - min_val)) col) data
  else set_column i (map (fun _ => 0.5) col) data.

Definition _preprocess (candles : list OHLCVData) : result ndarray :=
  let data := map (fun c => [open c; high c; low c; close c; volume c]) candles in
  match data with
  | [] => Raise IndexError (* [data.shape[1]] of an array of shape (0,) *)
  | row :: _ => Ok (fold_left scale_column (seq 0 (List.length row)) data)
  end.

Definition direction_map (pred_idx : nat) : result SignalDirection :=
  match pred_idx with
  | 0%nat => Ok LONG
  | 1%nat => Ok SHORT
  | 2%nat => Ok NEUTRAL
  | _ => Raise KeyError
  end.

Definition _predict_direction (self : SignalPredictor) (features : ndarray)
  : result (SignalDirection * Q * list Q) :=
  match model self with
  | None => Ok (NEUTRAL, 0.5, [0.33; 0.34; 0.33])
  | Some net =>
      probs <- net features ;;
      pred_idx <- np.argmax probs ;;
      confidence <- py.index probs pred_idx ;;
      direction <- direction_map pred_idx ;;
      Ok (direction, confidence, probs)
  end.

Definition _predict_shadow (self : SignalPredictor) (features : ndarray)
  : result (SignalDirection * Q) :=
  match shadow_model self with
  | None => Ok (NEUTRAL, 0.5)
  | Some net =>
      probs <- net features ;;
      pred_idx <- np.argmax probs ;;
      confidence <- py.index probs pred_idx ;;
      direction <- direction_map pred_idx ;;
      Ok (direction, confidence)
  end.

(** One entry of [tr]. *)
Definition true_range (h l prev_close : Q) : Q :=
  Qmax (h - l) (Qmax (Qabs (h - prev_close)) (Qabs (l - prev_close))).

(** [tr] of [_calculate_levels]: the true ranges of the last 14 candles, the
    first one (paired with the wrapped close) dropped. *)
Definition true_ranges (candles : list OHLCVData) : list Q :=
  let highs := map high (last_n 14 candles) in
  let lows := map low (last_n 14 candles) in
  let closes := map close (last_n 14 candles) in
  tl (map (fun hlc => true_range (fst (fst hlc)) (snd (fst hlc)) (snd hlc))
          (combine (combine highs lows) (np.roll1 closes))).

(** [atr] of [_calculate_levels]. *)
Definition average_true_range (candles : list OHLCVData) : np.float64 :=
  np.mean (true_ranges candles).

Definition _calculate_levels (direction : SignalDirection)
  (candles : list OHLCVData)
  : result (np.float64 * np.float64 * list np.float64 * np.float64) :=
  last_candle <- py.last candles ;;
  let current_price := np.Fin (close last_candle) in
  let atr := average_true_range candles in
  let '(entry, stop_loss, take_profits) :=
    match direction with
    | LONG =>
        (current_price,
         np.sub current_price (np.mul atr (np.Fin 1.5)),
         [np.add current_price (np.mul atr (np.Fin 1.0));
          np.add current_price (np.mul atr (np.Fin 2.0));
          np.add current_price (np.mul atr (np.Fin 3.0))])
    | SHORT =>
        (current_price,
         np.add current_price (np.mul atr (np.Fin 1.5)),
         [np.sub current_price (np.mul atr (np.Fin 1.0));
          np.sub current_price (np.mul atr (np.Fin 2.0));
          np.sub current_price (np.mul atr (np.Fin 3.0))])
    | NEUTRAL =>
        (current_price,
         np.mul current_price (np.Fin 0.98),
         [np.mul current_price (np.Fin 1.02)])
    end in
  let risk := np.abs (np.sub entry stop_loss) in
  tp0 <- py.index take_profits 0 ;;
  let reward := np.abs (np.sub tp0 entry) in
  let rr_ratio := if np.gt risk (np.Fin 0) then np.div reward risk else np.Fin 1.0 in
  Ok (entry, stop_loss, take_profits, rr_ratio).

Definition predict (self : SignalPredictor) (request : SignalRequest)
  : result (SignalDirection * Q * np.float64 * np.float64 * list np.float64
            * np.float64 * bool) :=
  features <- _preprocess (candles request) ;;
  '(direction, confidence, _) <- _predict_direction self features ;;
  '(shadow_direction, shadow_conf) <- _predict_shadow self features ;;
  let shadow_agreed := SignalDirection_eqb direction shadow_direction in
  '(entry, stop_loss, take_profits, rr_ratio) <-
    _calculate_levels direction (candles request) ;;
  Ok (direction, confidence, entry, stop_loss, take_profits, rr_ratio, shadow_agreed).

End signal_predictor.

(** ** services/risk_assessor.py *)

Module risk_assessor.
Import signal.

(** The instance attributes set by [__init__]. *)
Record RiskAssessor : Type := {
  historical_accuracy : list Q;
  recent_predictions : list (list (string * string))
}.

Definition __init__ : RiskAssessor :=
  {| historical_accuracy := []; recent_predictions := [] |}.

(** A method of [RiskAssessor]: it may raise, and it may update [self]. *)
Definition method (A : Type) : Type := RiskAssessor -> result A * RiskAssessor.

Definition ret {A : Type} (a : A) : method A := fun self => (Ok a, self).

Definition mbind {A B : Type} (m : method A) (k : A -> method B) : method B :=
  fun self =>
    match m self with
    | (Ok a, self') => k a self'
    | (Raise e, self') => (Raise e, self')
    end.

(** A computation that does not touch [self]. *)
Definition pure {A : Type} (r : result A) : method A := fun self => (r, self).

Definition get_historical_accuracy : method (list Q) :=
  fun self => (Ok (historical_accuracy self), self).

Definition set_historical_accuracy (h : list Q) : method unit :=
  fun self => (Ok tt, {| historical_accuracy := h;
                         recent_predictions := recent_predictions self |}).

Declare Scope method_scope.
Delimit Scope method_scope with method.
Notation "x <- e ;; k" := (mbind e (fun x => k))
  (at level 61, e at next level, right associativity) : method_scope.
Notation "' p <- e ;; k" := (mbind e (fun x => match x with p => k end))
  (at level 61, p pattern, e at next level, right associativity) : method_scope.

(** [if cond: factors.append(factor); mitigations.append(mitigation)]. *)
Definition append_if (cond : bool) (factor : result RiskFactor)
  (mitigation : string) (acc : list RiskFactor * list string)
  : result (list RiskFactor * list string) :=
  if cond
  then (f <- factor ;; Ok (fst acc ++ [f], snd acc ++ [mitigation]))%result
  else Ok acc.

(** [max_change]: the largest relative close-to-close move, 0 without moves. *)
Definition max_change (prices : list Q) : result Q :=
  (price_changes <-
     py.pairwise (fun prev cur => py.div (Qabs (cur - prev)) prev) prices ;;
   match price_changes with
   | [] => Ok 0
   | _ => py.max price_changes
   end)%result.

(** [volatility_pct]: mean high-low range of the last 14 candles over their
    mean close, in percent. *)
Definition volatility_pct (candles : list OHLCVData) : result Q :=
  (let highs := map high (last_n 14 candles) in
   let lows := map low (last_n 14 candles) in
   avg_range <-
     py.div (py.sum (map (fun hl => fst hl - snd hl) (combine highs lows)))
            (inject_Z (Z.of_nat (List.length highs))) ;;
   let avg_price := py.sum (map close (last_n 14 candles)) / 14 in
   ratio <- py.div avg_range avg_price ;;
   Ok (ratio * 100))%result.

Definition avg_volume (candles : list OHLCVData) : Q :=
  py.sum (map volume (last_n 14 candles)) / 14.

Section WithSettings.

Variable settings : config.Settings.

Definition STALE_DATA_MAX_AGE_MS : Z :=
  (config.risk_max_data_age_seconds settings * 1000)%Z.
Definition DRIFT_THRESHOLD : Q := config.risk_drift_threshold settings.
Definition MIN_CONFIDENCE : Q := config.ml_confidence_threshold settings.

Definition RPN_LOW : Q := 100.
Definition RPN_MEDIUM : Q := 200.
Definition RPN_HIGH : Q := 400.

Definition _detect_drift : method bool :=
  (h <- get_historical_accuracy ;;
   if (List.length h <? 10)%nat then ret false
   else
     let recent_accuracy := py.sum (last_n 10 h) / 10 in
     ret (Qltb recent_accuracy (1 - DRIFT_THRESHOLD)))%method.

(** [now_ms] is [int(time.time() * 1000)] as read by this call. *)
Definition assess (now_ms : Z) (request : SignalRequest)
  (direction : SignalDirection) (confidence : Q) (shadow_agreed : bool)
  : method RiskAssessment :=
  (let factors : list RiskFactor := [] in
   let mitigations : list string := [] in
   (* 1. data quality *)
   let data_age_ms := (now_ms - request_timestamp request)%Z in
   let is_stale := (data_age_ms >? STALE_DATA_MAX_AGE_MS)%Z in
   '(factors, mitigations) <- pure (append_if is_stale
       (RiskFactor_new "Stale Data" "data" 8.0
          [Lit "Data age ("; FmtInt data_age_ms; Lit "ms) exceeds threshold (";
           FmtInt STALE_DATA_MAX_AGE_MS; Lit "ms)"])
       "Reject signal and request fresh data" (factors, mitigations)) ;;
   let prices := map close (candles request) in
   max_change <- pure (max_change prices) ;;
   '(factors, mitigations) <- pure (append_if (Qltb 0.1 max_change)
       (RiskFactor_new "Anomalous Price Movement" "data" 7.0
          [Lit "Detected "; FmtFixed 1 (max_change * 100);
           Lit "% price move in single candle"])
       "Verify data integrity before execution" (factors, mitigations)) ;;
   (* 2. model reliability *)
   '(factors, mitigations) <- pure (append_if (Qltb confidence MIN_CONFIDENCE)
       (RiskFactor_new "Low Model Confidence" "model" 6.0
          [Lit "Confidence "; FmtPercent 2 confidence; Lit " below threshold ";
           FmtPercent 2 MIN_CONFIDENCE])
       "Reduce position size or skip trade" (factors, mitigations)) ;;
   '(factors, mitigations) <- pure (append_if (negb shadow_agreed)
       (RiskFactor_new "Model Disagreement" "model" 7.0
          [Lit "Primary and shadow models disagree on direction"])
       "Wait for model consensus before entry" (factors, mitigations)) ;;
   is_drift_detected <- _detect_drift ;;
   '(factors, mitigations) <- pure (append_if is_drift_detected
       (RiskFactor_new "Model Drift Detected" "model" 9.0
          [Lit "Recent accuracy below ";
           FmtFixed 0 ((1 - DRIFT_THRESHOLD) * 100); Lit "%"])
       "Trigger model retraining pipeline" (factors, mitigations)) ;;
   (* 3. market conditions *)
   volatility_pct <- pure (volatility_pct (candles request)) ;;
   '(factors, mitigations) <- pure (append_if (Qltb 5 volatility_pct)
       (RiskFactor_new "High Volatility" "market" 5.0
          [Lit "14-period volatility at "; FmtFixed 1 volatility_pct; Lit "%"])
       "Widen stop-loss or reduce leverage" (factors, mitigations)) ;;
   let avg_volume := avg_volume (candles request) in
   last_candle <- pure (py.last (candles request)) ;;
   let last_volume := volume last_candle in
   '(factors, mitigations) <- pure (append_if (Qltb last_volume (avg_volume * 0.5))
       (ratio <- py.div last_volume avg_volume ;;
        RiskFactor_new "Low Liquidity" "market" 4.0
          [Lit "Current volume at "; FmtFixed 0 (ratio * 100);
           Lit "% of average"])%result
       "Use limit orders to avoid slippage" (factors, mitigations)) ;;
   (* 4. execution *)
   '(factors, mitigations) <- pure (append_if (SignalDirection_eqb direction NEUTRAL)
       (RiskFactor_new "Neutral Signal" "execution" 3.0
          [Lit "Model suggests no clear trading direction"])
       "Wait for stronger signal confirmation" (factors, mitigations)) ;;
   (* FMEA scores *)
   let severity :=
     match factors with
     | [] => 1.0
     | _ => py.sum (map score factors) / inject_Z (Z.of_nat (List.length factors))
     end in
   let occurrence := Z.min 10 (Z.of_nat (List.length factors) * 2 + 1) in
   let detection := if shadow_agreed then 4.0 else 6.0 in
   let rpn := severity * inject_Z occurrence * detection in
   let risk_level :=
     if Qle_bool rpn RPN_LOW then LOW
     else if Qle_bool rpn RPN_MEDIUM then MEDIUM
     else if Qle_bool rpn RPN_HIGH then HIGH
     else CRITICAL in
   pure (RiskAssessment_new risk_level rpn severity (inject_Z occurrence)
           detection factors mitigations is_stale is_drift_detected
           shadow_agreed))%method.

Definition record_outcome (prediction_id : string) (was_correct : bool)
  : method unit :=
  (h <- get_historical_accuracy ;;
   _ <- set_historical_accuracy (h ++ [if was_correct then 1.0 else 0.0]) ;;
   h <- get_historical_accuracy ;;
   if (100 <? List.length h)%nat
   then set_historical_accuracy (last_n 100 h)
   else ret tt)%method.

End WithSettings.

End risk_assessor.

(** ** Requests the validators accept, and sample inputs *)

Module requests.
Import signal.

(** [c] is a candle [OHLCVData(...)] returns unchanged. *)
Definition OHLCVData_valid (c : OHLCVData) : bool :=
  match OHLCVData_new (timestamp c) (open c) (high c) (low c) (close c) (volume c) with
  | Ok _ => true
  | Raise _ => false
  end.

(** [r] is a request [SignalRequest(...)] accepts, made of accepted candles. *)
Definition SignalRequest_valid (r : SignalRequest) : bool :=
  match SignalRequest_new (exchange r) (symbol r) (timeframe r) (candles r)
          (request_timestamp r) with
  | Ok _ => forallb OHLCVData_valid (candles r)
  | Raise _ => false
  end.

Definition candle (t : Z) (o h l c v : Q) : OHLCVData :=
  {| timestamp := t; open := o; high := h; low := l; close := c; volume := v |}.

Definition request_of (cs : list OHLCVData) (ts : Z) : SignalRequest :=
  {| exchange := BINANCE; symbol := "BTC/USDT"; timeframe := M1;
     candles := cs; request_timestamp := ts |}.

(** 50 one-minute candles, each open 100, high 101, low 99, close 100. *)
Definition steady : list OHLCVData :=
  map (fun i => candle (Z.of_nat i * 60000) 100 101 99 100 10) (seq 0 50).

(** 50 candles without any intra-candle range whose close alternates
    between 100 and 108. *)
Definition gapped : list OHLCVData :=
  map (fun i => let p := if Nat.even i then 100 else 108 in
                candle (Z.of_nat i * 60000) p p p p 10) (seq 0 50).

(** 50 identical candles without any range. *)
Definition flat : list OHLCVData :=
  map (fun i => candle (Z.of_nat i * 60000) 100 100 100 100 10) (seq 0 50).

(** 50 candles of range 10 around a close of 100: a 10% range. *)
Definition ranging : list OHLCVData :=
  map (fun i => candle (Z.of_nat i * 60000) 100 105 95 100 10) (seq 0 50).

(** A candle whose high lies below its low and below its open and close. *)
Definition inverted : OHLCVData := candle 0 100 90 95 100 1.

(** A candle with high above low whose open lies above its high. *)
Definition open_above_high : OHLCVData := candle 0 200 101 99 100 1.

End requests.

(** ** Notions used by the statements *)

Module statements.
Import signal signal_predictor risk_assessor.

(** The float [record_outcome] stores for an outcome. *)
Definition outcome_value (was_correct : bool) : Q :=
  if was_correct then 1.0 else 0.0.

(** The assessor after a sequence of [record_outcome] calls, oldest first. *)
Definition record_outcomes (calls : list (string * bool)) (self : RiskAssessor)
  : RiskAssessor :=
  fold_left (fun s call => snd (record_outcome (fst call) (snd call) s)) calls self.

(** A method that leaves [self] as it found it, also when it raises. *)
Definition preserves_self {A : Type} (m : method A) : Prop :=
  forall self, snd (m self) = self.

(** [i] is the first index of [a] that holds its maximum. *)
Definition first_maximum (a : list Q) (i : nat) : Prop :=
  (i < List.length a)%nat /\
  (forall j, (j < List.length a)%nat -> nth j a 0 <= nth i a 0) /\
  (forall j, (j < i)%nat -> nth j a 0 < nth i a 0).

(** A predictor whose primary model answers [[0.5, 0.0, 0.5]]. *)
Definition tied_predictor : SignalPredictor :=
  {| model := Some (fun _ => Ok [0.5; 0.0; 0.5]);
     shadow_model := None;
     model_version := "v1.0.0-placeholder" |}.

(** Column [i] of the feature matrix, before scaling, for one candle. *)
Definition feature (i : nat) (c : OHLCVData) : Q :=
  nth i [open c; high c; low c; close c; volume c] 0.

(** What [_preprocess] writes for the value [x] of the column [col]. *)
Definition scaled (col : list Q) (x : Q) : Q :=
  if Qltb (np.min col) (np.max col)
  then (x - np.min col) / (np.max col - np.min col)
  else 0.5.

(** Name, category and severity of a factor. *)
Definition summary (f : RiskFactor) : string * string * Q :=
  (name f, category f, score f).

(** The answer of [_detect_drift] on the history [h]. *)
Definition drift_flag (settings : config.Settings) (h : list Q) : bool :=
  negb (List.length h <? 10)%nat &&
  Qltb (py.sum (last_n 10 h) / 10) (1 - DRIFT_THRESHOLD settings).

(** The eight checks of [assess], in the order of the code: the trigger of
    each, and the name, category and severity of the factor it appends.
    [max_change], [volatility_pct] and [last_candle] are the values [assess]
    computes under these names. *)
Definition checks (settings : config.Settings) (now_ms : Z)
  (request : SignalRequest) (direction : SignalDirection) (confidence : Q)
  (shadow_agreed : bool) (self : RiskAssessor)
  (max_change volatility_pct : Q) (last_candle : OHLCVData)
  : list (bool * (string * string * Q)) :=
  [ ((now_ms - request_timestamp request >? STALE_DATA_MAX_AGE_MS settings)%Z,
     ("Stale Data", "data", 8.0));
    (Qltb 0.1 max_change, ("Anomalous Price Movement", "data", 7.0));
    (Qltb confidence (MIN_CONFIDENCE settings), ("Low Model Confidence", "model", 6.0));
    (negb shadow_agreed, ("Model Disagreement", "model", 7.0));
    (drift_flag settings (historical_accuracy self),
     ("Model Drift Detected", "model", 9.0));
    (Qltb 5 volatility_pct, ("High Volatility", "market", 5.0));
    (Qltb (volume last_candle) (avg_volume (candles request) * 0.5),
     ("Low Liquidity", "market", 4.0));
    (SignalDirection_eqb direction NEUTRAL, ("Neutral Signal", "execution", 3.0)) ].

(** The summaries of the checks that fire. *)
Definition fired (cs : list (bool * (string * string * Q)))
  : list (string * string * Q) :=
  map snd (filter fst cs).

(** An assessor whose last ten recorded outcomes are all wrong. *)
Definition drifting : RiskAssessor :=
  record_outcomes (repeat ("prediction", false) 10) __init__.

(** Mean of [high - low] over the last 14 candles. *)
Definition avg_range (cs : list OHLCVData) : Q :=
  py.sum (map (fun c => high c - low c) (last_n 14 cs)) / 14.

(** Mean close over the last 14 candles. *)
Definition avg_close (cs : list OHLCVData) : Q :=
  py.sum (map close (last_n 14 cs)) / 14.

End statements.

(** ** schemas/signal.py, the response side *)

Module response.
Import signal.

(** [Field(gt=bound)] on a float field that receives a NumPy scalar: [nan]
    compares false and is refused. *)
Definition Field_gt_float64 (bound : Q) (v : np.float64) : result np.float64 :=
  if np.gt v (np.Fin bound) then Ok v else Raise ValidationError.

(** [Field(min_length=n)] on a list field. *)
Definition Field_min_length {A : Type} (n : nat) (v : list A) : result (list A) :=
  if (n <=? List.length v)%nat then Ok v else Raise ValidationError.

Record SignalPrediction : Type := {
  id : string;
  exchange : Exchange;
  symbol : string;
  timeframe : Timeframe;
  direction : SignalDirection;
  confidence : Q;
  entry_price : np.float64;
  stop_loss : np.float64;
  take_profit : list np.float64;
  risk_reward_ratio : np.float64;
  model_version : string;
  timestamp : Z;
  risk_assessment : RiskAssessment
}.

Definition SignalPrediction_new (id : string) (exchange : Exchange)
  (symbol : string) (timeframe : Timeframe) (direction : SignalDirection)
  (confidence : Q) (entry_price stop_loss : np.float64)
  (take_profit : list np.float64) (risk_reward_ratio : np.float64)
  (model_version : string) (timestamp : Z) (risk_assessment : RiskAssessment)
  : result SignalPrediction :=
  c <- Field_ge_le 0 1 confidence ;;
  e <- Field_gt_float64 0 entry_price ;;
  s <- Field_gt_float64 0 stop_loss ;;
  tp <- Field_min_length 1 take_profit ;;
  rr <- Field_gt_float64 0 risk_reward_ratio ;;
  Ok {| id := id; exchange := exchange; symbol := symbol;
        timeframe := timeframe; direction := direction; confidence := c;
        entry_price := e; stop_loss := s; take_profit := tp;
        risk_reward_ratio := rr; model_version := model_version;
        timestamp := timestamp; risk_assessment := risk_assessment |}.

Record SignalResponse : Type := {
  success : bool;
  data : option SignalPrediction;
  error : option string;
  processing_time_ms : Q
}.

End response.

(** ** main.py *)

Module main.
Import signal risk_assessor.

(** What an endpoint answers: its return value, or the [HTTPException] it
    raises, with the exception it was made from as detail. *)
Inductive answer (A : Type) : Type :=
| Returns (a : A)
| HTTPException (status_code : Z) (detail : exn).
Arguments Returns {A} a.
Arguments HTTPException {A} status_code detail.

(** [try: body  except Exception as e: raise HTTPException(500, str(e))]. *)
Definition try_or_500 {A : Type} (body : method A)
  : RiskAssessor -> answer A * RiskAssessor :=
  fun risk_assessor =>
    match body risk_assessor with
    | (Ok a, risk_assessor') => (Returns a, risk_assessor')
    | (Raise e, risk_assessor') => (HTTPException 500 e, risk_assessor')
    end.

(** [POST /predict], on the global [predictor] and [risk_assessor].
    [uuid4] is the id drawn, [assess_ms] and [timestamp_ms] the clock as
    read by [assess] and for the prediction's timestamp, and
    [processing_time] the elapsed time measured at the end. *)
Definition predict_signal (settings : config.Settings)
  (predictor : signal_predictor.SignalPredictor) (uuid4 : string)
  (assess_ms timestamp_ms : Z) (processing_time : Q) (request : SignalRequest)
  : RiskAssessor -> answer response.SignalResponse * RiskAssessor :=
  try_or_500
    ('(direction, confidence, entry, stop_loss, take_profits, rr_ratio,
       shadow_agreed) <- pure (signal_predictor.predict predictor request) ;;
     risk_assessment <-
       assess settings assess_ms request direction confidence shadow_agreed ;;
     prediction <- pure (response.SignalPrediction_new uuid4 (exchange request)
       (symbol request) (timeframe request) direction confidence entry
       stop_loss take_profits rr_ratio
       (signal_predictor.model_version predictor) timestamp_ms
       risk_assessment) ;;
     ret {| response.success := true; response.data := Some prediction;
            response.error := None;
            response.processing_time_ms := processing_time |})%method.

(** [POST /feedback]. *)
Definition record_feedback (prediction_id : string) (was_correct : bool)
  : method (list (string * string)) :=
  (_ <- record_outcome prediction_id was_correct ;;
   ret [("status", "recorded")])%method.

End main.

(** ** Further notions used by the statements *)

Module notions.
Import signal signal_predictor risk_assessor.

(** The band of a risk priority number, as [assess] classifies it. *)
Definition band (rpn : Q) : RiskLevel :=
  if Qle_bool rpn RPN_LOW then LOW
  else if Qle_bool rpn RPN_MEDIUM then MEDIUM
  else if Qle_bool rpn RPN_HIGH then HIGH
  else CRITICAL.

(** The mitigation [assess] appends together with each factor, by factor
    name. *)
Definition mitigation_table : list (string * string) :=
  [ ("Stale Data", "Reject signal and request fresh data");
    ("Anomalous Price Movement", "Verify data integrity before execution");
    ("Low Model Confidence", "Reduce position size or skip trade");
    ("Model Disagreement", "Wait for model consensus before entry");
    ("Model Drift Detected", "Trigger model retraining pipeline");
    ("High Volatility", "Widen stop-loss or reduce leverage");
    ("Low Liquidity", "Use limit orders to avoid slippage");
    ("Neutral Signal", "Wait for stronger signal confirmation") ].

(** [ms] holds one entry per factor of [fs], each the mitigation of the
    factor at the same index. *)
Definition paired (fs : list RiskFactor) (ms : list string) : Prop :=
  List.length ms = List.length fs /\
  Forall (fun p => In p mitigation_table) (combine (map name fs) ms).

(** The relative close-to-close moves |p[i] - p[i-1]| / p[i-1], oldest
    first. *)
Fixpoint relative_moves (prices : list Q) : list Q :=
  match prices with
  | x :: ((y :: _) as tl) => Qabs (y - x) / x :: relative_moves tl
  | _ => []
  end.

(** A non-empty string of characters of [[A-Z0-9]]. *)
Definition code_word (w : string) : Prop :=
  w <> EmptyString /\
  forall c, In c (list_ascii_of_string w) -> is_A_Z_0_9 c = true.

(** How many of the last ten outcomes were wrong. *)
Definition wrong_among_last_ten (calls : list (string * bool)) : nat :=
  List.length (filter (fun call => negb (snd call)) (last_n 10 calls)).

End notions.

(** * Properties *)

Import signal signal_predictor risk_assessor requests statements.

(** ** Rationals, lists and the Python helpers *)

Lemma Qltb_lt (x y : Q) : Qltb x y = true <-> x < y.
Proof.
  unfold Qltb. rewrite negb_true_iff. split; intro H.
  - apply Qnot_le_lt. intro Hle. apply Qle_bool_iff in Hle. congruence.
  - destruct (Qle_bool y x) eqn:E; [|reflexivity].
    apply Qle_bool_iff in E. exfalso. apply (Qlt_not_le _ _ H E).
Qed.

Lemma Qltb_ge (x y : Q) : Qltb x y = false <-> y <= x.
Proof.
  unfold Qltb. rewrite negb_false_iff. apply Qle_bool_iff.
Qed.

Lemma last_n_all {A : Type} (n : nat) (l : list A) :
  (List.length l <= n)%nat -> last_n n l = l.
Proof.
  intro H. unfold last_n. replace (List.length l - n)%nat with 0%nat by lia.
  reflexivity.
Qed.

Lemma last_n_length {A : Type} (n : nat) (l : list A) :
  List.length (last_n n l) = Nat.min n (List.length l).
Proof. unfold last_n. rewrite length_skipn. lia. Qed.

Lemma last_n_In {A : Type} (n : nat) (l : list A) (x : A) :
  In x (last_n n l) -> In x l.
Proof.
  unfold last_n. intro H.
  rewrite <- (firstn_skipn (List.length l - n) l). apply in_or_app. now right.
Qed.

Lemma last_n_app {A : Type} (n : nat) (l m : list A) :
  last_n n (last_n n l ++ m) = last_n n (l ++ m).
Proof.
  destruct (Nat.le_gt_cases (List.length l) n) as [Hle | Hgt].
  - now rewrite (last_n_all n l).
  - assert (Hs : List.length (last_n n l) = n) by (rewrite last_n_length; lia).
    assert (Hl : l = firstn (List.length l - n) l ++ last_n n l)
      by (unfold last_n; now rewrite firstn_skipn).
    assert (Hf : List.length (firstn (List.length l - n) l) = (List.length l - n)%nat)
      by (rewrite length_firstn; lia).
    remember (last_n n l) as s. remember (firstn (List.length l - n) l) as f.
    rewrite Hl at 1. unfold last_n. rewrite <- app_assoc, !length_app, Hs.
    replace (List.length f + (n + List.length m) - n)%nat
      with (List.length f + (n + List.length m - n))%nat by lia.
    rewrite (skipn_app (List.length f + _) f). rewrite (skipn_all2 f) by lia. cbn [app].
    replace (List.length f + (n + List.length m - n) - List.length f)%nat
      with (n + List.length m - n)%nat by lia.
    reflexivity.
Qed.


Lemma last_nonempty {A : Type} (l : list A) :
  l <> [] -> exists x, py.last l = Ok x /\ In x l.
Proof.
  intro H. unfold py.last. destruct (rev l) as [|x r] eqn:E.
  - apply (f_equal (@rev A)) in E. rewrite rev_involutive in E. now subst.
  - exists x. split; [reflexivity|]. apply in_rev. rewrite E. now left.
Qed.


(** ** Outcome history: [record_outcome] *)

Lemma record_outcome_spec (prediction_id : string) (was_correct : bool)
  (self : RiskAssessor) :
  record_outcome prediction_id was_correct self =
  (Ok tt,
   {| historical_accuracy :=
        last_n 100 (historical_accuracy self ++ [outcome_value was_correct]);
      recent_predictions := recent_predictions self |}).
Proof.
  unfold record_outcome, mbind, get_historical_accuracy, set_historical_accuracy,
    ret, outcome_value.
  cbn [historical_accuracy recent_predictions].
  destruct (100 <? _)%nat eqn:E.
  - reflexivity.
  - apply Nat.ltb_ge in E. now rewrite last_n_all.
Qed.

Lemma record_outcomes_history (calls : list (string * bool)) :
  forall (self : RiskAssessor) (past : list Q),
    historical_accuracy self = last_n 100 past ->
    historical_accuracy (record_outcomes calls self) =
    last_n 100 (past ++ map (fun call => outcome_value (snd call)) calls).
Proof.
  induction calls as [|call calls IH]; intros self past Hpast.
  - cbn. now rewrite app_nil_r.
  - cbn [record_outcomes fold_left map].
    fold (record_outcomes calls (snd (record_outcome (fst call) (snd call) self))).
    rewrite (IH _ (past ++ [outcome_value (snd call)])).
    + now rewrite <- app_assoc.
    + rewrite record_outcome_spec. cbn [snd historical_accuracy].
      rewrite Hpast. apply last_n_app.
Qed.

(** C8. Starting from a fresh assessor, after any sequence of
    [record_outcome] calls the history holds at most 100 entries, exactly
    [min (number of calls) 100] of them, and they are the most recent
    outcomes in the order they were appended (so the 101st append drops the
    oldest entry). *)
Theorem record_outcome_keeps_last_100 (calls : list (string * bool)) :
  let history := historical_accuracy (record_outcomes calls __init__) in
  let appended := map (fun call => outcome_value (snd call)) calls in
  (List.length history <= 100)%nat /\
  List.length history = Nat.min (List.length calls) 100 /\
  history = last_n (Nat.min (List.length calls) 100) appended /\
  (forall oldest rest, List.length rest = 100%nat -> appended = oldest :: rest ->
     history = rest).
Proof.
  intros history appended.
  assert (H : history = last_n 100 appended).
  { unfold history. now rewrite (record_outcomes_history calls __init__ []). }
  assert (Hlen : List.length appended = List.length calls)
    by (unfold appended; apply length_map).
  repeat split.
  - rewrite H, last_n_length. lia.
  - rewrite H, last_n_length. lia.
  - rewrite H. unfold last_n. rewrite Hlen. f_equal. lia.
  - intros oldest rest Hrest Happ. rewrite H, Happ. unfold last_n.
    cbn [List.length]. rewrite Hrest. reflexivity.
Qed.

(** The 101st append, on a concrete run: one correct outcome, then 100
    wrong ones, after which the correct one is gone. *)
Example record_outcome_101st_evicts :
  List.length (historical_accuracy
    (record_outcomes (("first", true) :: repeat ("later", false) 100) __init__))
  = 100%nat /\
  ~ In 1.0 (historical_accuracy
    (record_outcomes (("first", true) :: repeat ("later", false) 100) __init__)).
Proof.
  split.
  - vm_compute. reflexivity.
  - vm_compute. intuition discriminate.
Qed.

(** ** [assess] and the assessor's state *)

Lemma preserves_ret {A : Type} (a : A) : preserves_self (ret a).
Proof. intro self. reflexivity. Qed.

Lemma preserves_pure {A : Type} (r : result A) : preserves_self (pure r).
Proof. intro self. reflexivity. Qed.

Lemma preserves_get : preserves_self get_historical_accuracy.
Proof. intro self. reflexivity. Qed.

Lemma preserves_mbind {A B : Type} (m : method A) (k : A -> method B) :
  preserves_self m -> (forall a, preserves_self (k a)) -> preserves_self (mbind m k).
Proof.
  intros Hm Hk self. unfold mbind. specialize (Hm self).
  destruct (m self) as [[a | e] self']; cbn [snd] in *; subst self'.
  - apply Hk.
  - reflexivity.
Qed.

Lemma preserves_detect_drift (settings : config.Settings) :
  preserves_self (_detect_drift settings).
Proof.
  unfold _detect_drift. apply preserves_mbind; [apply preserves_get|].
  intro h. destruct (_ <? _)%nat; apply preserves_ret.
Qed.

Lemma preserves_assess (settings : config.Settings) (now_ms : Z)
  (request : SignalRequest) (direction : SignalDirection) (confidence : Q)
  (shadow_agreed : bool) :
  preserves_self (assess settings now_ms request direction confidence shadow_agreed).
Proof.
  unfold assess.
  repeat first
    [ apply preserves_pure
    | apply preserves_detect_drift
    | apply preserves_mbind
    | intros [? ?]
    | intro ].
Qed.

(** C10. [assess] (and the drift check inside it) returns the assessor it
    was given, whatever the arguments and whether or not it raises;
    [record_outcome] replaces the history by its last 100 entries after the
    append, and does change a fresh assessor. *)
Theorem assess_leaves_history :
  (forall settings now_ms request direction confidence shadow_agreed self,
     snd (assess settings now_ms request direction confidence shadow_agreed self)
     = self) /\
  (forall settings self, snd (_detect_drift settings self) = self) /\
  (forall prediction_id was_correct self,
     historical_accuracy (snd (record_outcome prediction_id was_correct self)) =
     last_n 100 (historical_accuracy self ++ [outcome_value was_correct])) /\
  (forall prediction_id was_correct,
     snd (record_outcome prediction_id was_correct __init__) <> __init__).
Proof.
  repeat split.
  - intros. apply preserves_assess.
  - intros. apply preserves_detect_drift.
  - intros. now rewrite record_outcome_spec.
  - intros. rewrite record_outcome_spec. cbn. discriminate.
Qed.

(** ** Validation: [OHLCVData] and [SignalRequest] *)

Lemma Field_gt_Ok (bound v : Q) : bound < v -> Field_gt bound v = Ok v.
Proof. intro H. unfold Field_gt. apply Qltb_lt in H. now rewrite H. Qed.

Lemma Field_gt_inv (bound v w : Q) : Field_gt bound v = Ok w -> bound < v /\ w = v.
Proof.
  unfold Field_gt. destruct (Qltb bound v) eqn:E; [|discriminate].
  intro H. injection H as <-. split; [now apply Qltb_lt|reflexivity].
Qed.

Lemma Field_ge_Ok (bound v : Q) : bound <= v -> Field_ge bound v = Ok v.
Proof. intro H. unfold Field_ge. apply Qle_bool_iff in H. now rewrite H. Qed.

Lemma Field_ge_inv (bound v w : Q) : Field_ge bound v = Ok w -> bound <= v /\ w = v.
Proof.
  unfold Field_ge. destruct (Qle_bool bound v) eqn:E; [|discriminate].
  intro H. injection H as <-. split; [now apply Qle_bool_iff|reflexivity].
Qed.

Lemma Field_ge_le_Ok (lo hi v : Q) : lo <= v -> v <= hi -> Field_ge_le lo hi v = Ok v.
Proof.
  intros H1 H2. unfold Field_ge_le.
  apply Qle_bool_iff in H1, H2. now rewrite H1, H2.
Qed.

(** When [high] is validated, [info.data] holds [timestamp] and [open] only:
    the validator finds no ["low"] and accepts every value. *)
Lemma high_must_be_highest_sees_no_low (t : Z) (o h : Q) :
  high_must_be_highest h [("timestamp", inject_Z t); ("open", o)] = Ok h.
Proof. reflexivity. Qed.

(** What the constructor checks: positive prices and a non-negative volume,
    nothing that relates one price to another. *)
Lemma OHLCVData_new_Ok (t : Z) (o h l c v : Q) :
  0 < o -> 0 < h -> 0 < l -> 0 < c -> 0 <= v ->
  OHLCVData_new t o h l c v = Ok (candle t o h l c v).
Proof.
  intros Ho Hh Hl Hc Hv. unfold OHLCVData_new.
  rewrite (Field_gt_Ok _ _ Ho). cbn [py.bind].
  rewrite (Field_gt_Ok _ _ Hh). cbn [py.bind app].
  rewrite high_must_be_highest_sees_no_low. cbn [py.bind].
  rewrite (Field_gt_Ok _ _ Hl). cbn [py.bind].
  rewrite (Field_gt_Ok _ _ Hc). cbn [py.bind].
  rewrite (Field_ge_Ok _ _ Hv). reflexivity.
Qed.

Lemma OHLCVData_valid_fields (c : OHLCVData) :
  OHLCVData_valid c = true ->
  0 < open c /\ 0 < high c /\ 0 < low c /\ 0 < close c /\ 0 <= volume c.
Proof.
  unfold OHLCVData_valid, OHLCVData_new.
  destruct (Field_gt 0 (open c)) as [o|] eqn:Eo; [|discriminate]. cbn [py.bind].
  destruct (Field_gt 0 (high c)) as [h|] eqn:Eh; [|discriminate]. cbn [py.bind].
  destruct (high_must_be_highest h _) as [h'|]; [|discriminate]. cbn [py.bind].
  destruct (Field_gt 0 (low c)) as [l|] eqn:El; [|discriminate]. cbn [py.bind].
  destruct (Field_gt 0 (close c)) as [cl|] eqn:Ec; [|discriminate]. cbn [py.bind].
  destruct (Field_ge 0 (volume c)) as [v|] eqn:Ev; [|discriminate].
  intros _.
  apply Field_gt_inv in Eo, Eh, El, Ec. apply Field_ge_inv in Ev. tauto.
Qed.

Lemma SignalRequest_valid_inv (r : SignalRequest) :
  SignalRequest_valid r = true ->
  (50 <= List.length (candles r) <= 500)%nat /\
  Forall (fun c => 0 < open c /\ 0 < high c /\ 0 < low c /\ 0 < close c /\
                   0 <= volume c) (candles r).
Proof.
  unfold SignalRequest_valid, SignalRequest_new.
  destruct (symbol_pattern false (symbol r)); [|discriminate]. cbn [py.bind].
  destruct (validate_symbol (symbol r)); [|discriminate]. cbn [py.bind].
  destruct ((50 <=? _)%nat && (_ <=? 500)%nat) eqn:E; [|discriminate].
  cbn [py.bind]. intro H. split.
  - apply andb_true_iff in E as [E1 E2].
    apply Nat.leb_le in E1, E2. lia.
  - apply Forall_forall. intros c Hc.
    apply OHLCVData_valid_fields.
    rewrite forallb_forall in H. now apply H.
Qed.

Lemma SignalRequest_valid_nonempty (r : SignalRequest) :
  SignalRequest_valid r = true -> candles r <> [].
Proof.
  intro H. apply SignalRequest_valid_inv in H as [[H _] _].
  intro E. rewrite E in H. cbn in H. lia.
Qed.

(** C6, as stated, fails: the constructor accepts [open_above_high] (open
    200, high 101, low 99, close 100), whose high is above its low and whose
    open lies outside the interval from low to high. *)
Lemma candle_open_outside_range_accepted :
  OHLCVData_new 0 200 101 99 100 1 = Ok open_above_high /\
  low open_above_high <= high open_above_high /\
  ~ (low open_above_high <= open open_above_high <= high open_above_high).
Proof.
  split; [reflexivity|]. split; [discriminate|].
  intros [_ H]. apply H. reflexivity.
Qed.

(** C6, amended. Constructing a candle whose open, high, low or close is not
    strictly positive, or whose volume is negative, fails validation; every
    constructed candle carries the values it was given, with open, high, low
    and close strictly positive and a non-negative volume. *)
Theorem OHLCVData_requires_positive_prices (t : Z) (o h l c v : Q) :
  (forall cd, OHLCVData_new t o h l c v = Ok cd ->
     cd = candle t o h l c v /\
     0 < open cd /\ 0 < high cd /\ 0 < low cd /\ 0 < close cd /\ 0 <= volume cd) /\
  (~ (0 < o /\ 0 < h /\ 0 < l /\ 0 < c /\ 0 <= v) ->
   OHLCVData_new t o h l c v = Raise ValidationError).
Proof.
  unfold OHLCVData_new, Field_gt, Field_ge.
  destruct (Qltb 0 o) eqn:Eo; cbn [py.bind app];
    [|split; [discriminate|reflexivity]].
  destruct (Qltb 0 h) eqn:Eh; cbn [py.bind app];
    [|split; [discriminate|reflexivity]].
  rewrite high_must_be_highest_sees_no_low. cbn [py.bind].
  destruct (Qltb 0 l) eqn:El; cbn [py.bind];
    [|split; [discriminate|reflexivity]].
  destruct (Qltb 0 c) eqn:Ec; cbn [py.bind];
    [|split; [discriminate|reflexivity]].
  destruct (Qle_bool 0 v) eqn:Ev; cbn [py.bind];
    [|split; [discriminate|reflexivity]].
  apply Qltb_lt in Eo, Eh, El, Ec. apply Qle_bool_iff in Ev.
  split.
  - intros cd H. injection H as <-. cbn. tauto.
  - intro H. exfalso. apply H. tauto.
Qed.

(** The one cross-field validator never compares anything (see
    [high_must_be_highest_sees_no_low]): a candle whose high lies below its
    low is constructed as well. *)
Example inverted_candle_constructed :
  OHLCVData_new 0 100 90 95 100 1 = Ok inverted /\
  high inverted < low inverted.
Proof. split; reflexivity. Qed.

(** ** [predict] without loaded models *)

Lemma calculate_levels_total (direction : SignalDirection)
  (candles : list OHLCVData) :
  candles <> [] ->
  exists entry stop_loss take_profits rr_ratio,
    _calculate_levels direction candles =
    Ok (entry, stop_loss, take_profits, rr_ratio).
Proof.
  intro H. destruct (last_nonempty candles H) as [c [Hc _]].
  unfold _calculate_levels. rewrite Hc. cbn [py.bind].
  destruct direction; cbn; eauto.
Qed.

Lemma preprocess_total (candles : list OHLCVData) :
  candles <> [] -> exists data, _preprocess candles = Ok data.
Proof.
  destruct candles as [|c cs]; [congruence|]. intros _.
  unfold _preprocess. cbn [map]. eauto.
Qed.

(** C9. With neither model loaded, [predict] on every request the
    validators accept returns (it does not raise) direction NEUTRAL,
    confidence 0.5 and [shadow_agreed = True]. *)
Theorem predict_without_models (self : SignalPredictor) (request : SignalRequest)
  (Hmodel : model self = None) (Hshadow : shadow_model self = None)
  (Hvalid : SignalRequest_valid request = true) :
  exists entry stop_loss take_profits rr_ratio,
    predict self request =
    Ok (NEUTRAL, 0.5, entry, stop_loss, take_profits, rr_ratio, true).
Proof.
  apply SignalRequest_valid_nonempty in Hvalid.
  destruct (preprocess_total _ Hvalid) as [data Hdata].
  destruct (calculate_levels_total NEUTRAL _ Hvalid)
    as [entry [stop_loss [take_profits [rr_ratio Hlevels]]]].
  exists entry, stop_loss, take_profits, rr_ratio.
  unfold predict. rewrite Hdata. cbn [py.bind].
  unfold _predict_direction, _predict_shadow. rewrite Hmodel, Hshadow.
  cbn [py.bind SignalDirection_eqb]. rewrite Hlevels. reflexivity.
Qed.

(** [predict_without_models] on the window [steady]. *)
Lemma predict_without_models_witness :
  exists entry stop_loss take_profits rr_ratio,
    predict {| model := None; shadow_model := None;
               model_version := "v1.0.0-placeholder" |}
            (request_of steady 1000) =
    Ok (NEUTRAL, 0.5, entry, stop_loss, take_profits, rr_ratio, true).
Proof.
  apply predict_without_models.
  - reflexivity.
  - reflexivity.
  - vm_compute. reflexivity.
Defined.

(** ** [np.argmax] and the direction of the primary model *)

Lemma argmax_from_spec (xs : list Q) :
  forall (pre : list Q) (best_i : nat) (best : Q),
    (best_i < List.length pre)%nat ->
    nth best_i pre 0 = best ->
    (forall j, (j < List.length pre)%nat -> nth j pre 0 <= best) ->
    (forall j, (j < best_i)%nat -> nth j pre 0 < best) ->
    first_maximum (pre ++ xs) (np.argmax_from best_i best (List.length pre) xs).
Proof.
  induction xs as [|x xs IH]; intros pre best_i best Hi Hbest Hmax Hfirst.
  - cbn [np.argmax_from]. rewrite app_nil_r. subst best. repeat split; auto.
  - cbn [np.argmax_from].
    replace (pre ++ x :: xs) with ((pre ++ [x]) ++ xs) by now rewrite <- app_assoc.
    replace (S (List.length pre)) with (List.length (pre ++ [x]))
      by (rewrite length_app; cbn; lia).
    destruct (Qltb best x) eqn:E.
    + apply Qltb_lt in E.
      replace (List.length pre) with (List.length (pre ++ [x]) - 1)%nat at 1
        by (rewrite length_app; cbn; lia).
      apply IH.
      * rewrite length_app. cbn. lia.
      * rewrite length_app. cbn [List.length].
        rewrite app_nth2 by lia.
        replace (List.length pre + 1 - 1 - List.length pre)%nat with 0%nat by lia.
        reflexivity.
      * intros j Hj. rewrite length_app in Hj. cbn in Hj.
        destruct (Nat.eq_dec j (List.length pre)) as [->|Hne].
        -- rewrite app_nth2 by lia. rewrite Nat.sub_diag. cbn. apply Qle_refl.
        -- rewrite app_nth1 by lia. apply Qlt_le_weak.
           apply Qle_lt_trans with best; [apply Hmax; lia|exact E].
      * intros j Hj. rewrite length_app in Hj. cbn in Hj.
        rewrite app_nth1 by lia.
        apply Qle_lt_trans with best; [apply Hmax; lia|exact E].
    + apply Qltb_ge in E. apply IH.
      * rewrite length_app. cbn. lia.
      * rewrite app_nth1 by lia. exact Hbest.
      * intros j Hj. rewrite length_app in Hj. cbn in Hj.
        destruct (Nat.eq_dec j (List.length pre)) as [->|Hne].
        -- rewrite app_nth2 by lia. rewrite Nat.sub_diag. exact E.
        -- rewrite app_nth1 by lia. apply Hmax. lia.
      * intros j Hj. rewrite app_nth1 by lia. now apply Hfirst.
Qed.

Lemma argmax_first_maximum (a : list Q) :
  a <> [] -> exists i, np.argmax a = Ok i /\ first_maximum a i.
Proof.
  destruct a as [|x xs]; [congruence|]. intros _.
  exists (np.argmax_from 0 x 1 xs). split; [reflexivity|].
  apply (argmax_from_spec xs [x] 0%nat x).
  - cbn. lia.
  - reflexivity.
  - intros j Hj. cbn in Hj. replace j with 0%nat by lia. apply Qle_refl.
  - intros j Hj. lia.
Qed.

(** C3, as stated, fails: on [[0.5, 0.0, 0.5]] the primary prediction takes
    index 0, which the code maps to LONG and not to SHORT. *)
Lemma tie_resolves_to_long_not_short :
  np.argmax [0.5; 0.0; 0.5] = Ok 0%nat /\
  _predict_direction tied_predictor [] = Ok (LONG, 0.5, [0.5; 0.0; 0.5]) /\
  ~ (exists confidence probs,
       _predict_direction tied_predictor [] = Ok (SHORT, confidence, probs)).
Proof.
  split; [reflexivity|]. split; [reflexivity|].
  intros [confidence [probs H]]. cbn in H. discriminate.
Qed.

(** C3, amended. The primary prediction takes the first index that holds
    the maximum of the three probabilities, under the index order
    LONG (0) < SHORT (1) < NEUTRAL (2), and reports the probability at that
    index; on [[0.5, 0.0, 0.5]] this is index 0 and LONG. *)
Theorem predict_direction_first_maximum (self : SignalPredictor)
  (net : SignalPredictorNN) (features : ndarray) (probs : list Q)
  (Hmodel : model self = Some net) (Hprobs : net features = Ok probs)
  (Hlen : List.length probs = 3%nat) :
  exists idx direction,
    np.argmax probs = Ok idx /\
    first_maximum probs idx /\
    direction = nth idx [LONG; SHORT; NEUTRAL] NEUTRAL /\
    direction_map idx = Ok direction /\
    _predict_direction self features = Ok (direction, nth idx probs 0, probs) /\
    (probs = [0.5; 0.0; 0.5] -> idx = 0%nat /\ direction = LONG).
Proof.
  assert (Hne : probs <> []) by (intro E; now rewrite E in Hlen).
  destruct (argmax_first_maximum probs Hne) as [idx [Hidx Hfirst]].
  exists idx, (nth idx [LONG; SHORT; NEUTRAL] NEUTRAL).
  split; [exact Hidx|]. split; [exact Hfirst|]. split; [reflexivity|].
  assert (Hlt : (idx < 3)%nat) by (destruct Hfirst as [H _]; now rewrite Hlen in H).
  split; [destruct idx as [|[|[|idx]]]; [reflexivity ..|lia]|].
  split.
  - unfold _predict_direction. rewrite Hmodel, Hprobs. cbn [py.bind].
    rewrite Hidx. cbn [py.bind]. unfold py.index.
    destruct (nth_error probs idx) as [p|] eqn:Ep.
    + cbn [py.bind]. rewrite (nth_error_nth _ _ 0 Ep).
      destruct idx as [|[|[|idx]]]; [reflexivity ..|lia].
    + apply nth_error_None in Ep. lia.
  - intros ->. cbn in Hidx. injection Hidx as <-. split; reflexivity.
Qed.

(** [predict_direction_first_maximum] on the tied vector itself. *)
Lemma predict_direction_first_maximum_witness :
  exists idx direction,
    np.argmax [0.5; 0.0; 0.5] = Ok idx /\
    first_maximum [0.5; 0.0; 0.5] idx /\
    direction = nth idx [LONG; SHORT; NEUTRAL] NEUTRAL /\
    direction_map idx = Ok direction /\
    _predict_direction tied_predictor [] =
    Ok (direction, nth idx [0.5; 0.0; 0.5] 0, [0.5; 0.0; 0.5]) /\
    ([0.5; 0.0; 0.5] = [0.5; 0.0; 0.5] -> idx = 0%nat /\ direction = LONG).
Proof.
  apply (predict_direction_first_maximum tied_predictor
           (fun _ => Ok [0.5; 0.0; 0.5]) []);
    reflexivity.
Defined.

(** ** Levels: [_calculate_levels] *)

Lemma Qabs_positive (x : Q) : 0 < x -> 0 < Qabs x.
Proof. intro H. apply Qlt_le_trans with x; [exact H|apply Qle_Qabs]. Qed.

(** C2, as stated, fails: on the window [steady] (last close 100, ATR 2)
    the LONG levels are 97 and 102, 104, 106, and the risk/reward ratio is
    not 1. *)
Lemma long_risk_reward_is_not_one :
  (exists last_candle, py.last steady = Ok last_candle /\ close last_candle == 100) /\
  np.eqv (average_true_range steady) (np.Fin 2.0) /\
  exists entry stop_loss take_profits rr_ratio,
    _calculate_levels LONG steady = Ok (entry, stop_loss, take_profits, rr_ratio) /\
    np.eqv stop_loss (np.Fin 97.0) /\
    Forall2 np.eqv take_profits [np.Fin 102.0; np.Fin 104.0; np.Fin 106.0] /\
    ~ np.eqv rr_ratio (np.Fin 1.0).
Proof.
  split.
  { eexists. split; [vm_compute; reflexivity|reflexivity]. }
  split; [vm_compute; reflexivity|].
  do 4 eexists. split; [vm_compute; reflexivity|].
  split; [reflexivity|]. split.
  - repeat constructor.
  - cbn. intro H. vm_compute in H. discriminate.
Qed.

(** C2, amended. For a LONG direction on any window whose last close is 100
    and whose ATR is 2.0: entry 100, stop_loss 97.0, take_profits
    [102.0, 104.0, 106.0], and risk_reward
    = |take_profits[0] - entry| / |entry - stop_loss| = 2/3. *)
Theorem long_levels_at_price_100_atr_2 (candles : list OHLCVData)
  (last_candle : OHLCVData)
  (Hlast : py.last candles = Ok last_candle)
  (Hprice : close last_candle == 100)
  (Hatr : np.eqv (average_true_range candles) (np.Fin 2.0)) :
  exists entry stop_loss tp1 tp2 tp3 rr_ratio,
    _calculate_levels LONG candles =
    Ok (entry, stop_loss, [tp1; tp2; tp3], rr_ratio) /\
    np.eqv entry (np.Fin 100) /\
    np.eqv stop_loss (np.Fin 97.0) /\
    np.eqv tp1 (np.Fin 102.0) /\
    np.eqv tp2 (np.Fin 104.0) /\
    np.eqv tp3 (np.Fin 106.0) /\
    rr_ratio = np.div (np.abs (np.sub tp1 entry)) (np.abs (np.sub entry stop_loss)) /\
    np.eqv rr_ratio (np.Fin (2 # 3)).
Proof.
  unfold _calculate_levels. rewrite Hlast. cbn [py.bind].
  destruct (average_true_range candles) as [a|]; [|contradiction].
  cbn [np.eqv] in Hatr.
  set (p := close last_candle) in *.
  cbn [np.sub np.add np.mul np.lift2 np.abs py.index nth_error py.bind np.gt].
  assert (Hrisk : p - (p - a * 1.5) == 3) by (rewrite Hprice, Hatr; reflexivity).
  assert (Hgt : Qltb 0 (Qabs (p - (p - a * 1.5))) = true).
  { apply Qltb_lt, Qabs_positive. rewrite Hrisk. reflexivity. }
  rewrite Hgt.
  do 6 eexists. split; [reflexivity|].
  cbn [np.eqv np.div np.lift2 np.abs np.sub].
  repeat split; rewrite ?Hprice, ?Hatr; reflexivity.
Qed.

(** [long_levels_at_price_100_atr_2] on the window [steady]. *)
Lemma long_levels_at_price_100_atr_2_witness :
  exists entry stop_loss tp1 tp2 tp3 rr_ratio,
    _calculate_levels LONG steady =
    Ok (entry, stop_loss, [tp1; tp2; tp3], rr_ratio) /\
    np.eqv entry (np.Fin 100) /\
    np.eqv stop_loss (np.Fin 97.0) /\
    np.eqv tp1 (np.Fin 102.0) /\
    np.eqv tp2 (np.Fin 104.0) /\
    np.eqv tp3 (np.Fin 106.0) /\
    rr_ratio = np.div (np.abs (np.sub tp1 entry)) (np.abs (np.sub entry stop_loss)) /\
    np.eqv rr_ratio (np.Fin (2 # 3)).
Proof.
  apply (long_levels_at_price_100_atr_2 steady (candle 2940000 100 101 99 100 10)).
  - vm_compute. reflexivity.
  - reflexivity.
  - vm_compute. reflexivity.
Defined.

(** ** Feature normalization: [_preprocess] *)

Lemma fold_Qmin_le (xs : list Q) :
  forall a, fold_left Qmin xs a <= a /\
            forall y, In y xs -> fold_left Qmin xs a <= y.
Proof.
  induction xs as [|x xs IH]; intro a; cbn [fold_left].
  - split; [apply Qle_refl|intros y []].
  - destruct (IH (Qmin a x)) as [H1 H2]. split.
    + apply Qle_trans with (Qmin a x); [exact H1|apply Q.le_min_l].
    + intros y [<-|Hy].
      * apply Qle_trans with (Qmin a x); [exact H1|apply Q.le_min_r].
      * now apply H2.
Qed.

Lemma fold_Qmax_ge (xs : list Q) :
  forall a, a <= fold_left Qmax xs a /\
            forall y, In y xs -> y <= fold_left Qmax xs a.
Proof.
  induction xs as [|x xs IH]; intro a; cbn [fold_left].
  - split; [apply Qle_refl|intros y []].
  - destruct (IH (Qmax a x)) as [H1 H2]. split.
    + apply Qle_trans with (Qmax a x); [apply Q.le_max_l|exact H1].
    + intros y [<-|Hy].
      * apply Qle_trans with (Qmax a x); [apply Q.le_max_r|exact H1].
      * now apply H2.
Qed.

Lemma np_min_le (col : list Q) (x : Q) : In x col -> np.min col <= x.
Proof.
  destruct col as [|a xs]; [intros []|]. cbn [np.min].
  destruct (fold_Qmin_le xs a) as [H1 H2].
  intros [<-|Hx]; [exact H1|now apply H2].
Qed.

Lemma np_max_ge (col : list Q) (x : Q) : In x col -> x <= np.max col.
Proof.
  destruct col as [|a xs]; [intros []|]. cbn [np.max].
  destruct (fold_Qmax_ge xs a) as [H1 H2].
  intros [<-|Hx]; [exact H1|now apply H2].
Qed.

Lemma scaled_bounds (col : list Q) (x : Q) : In x col -> 0 <= scaled col x <= 1.
Proof.
  intro Hx. unfold scaled.
  pose proof (np_min_le col x Hx) as Hmin.
  pose proof (np_max_ge col x Hx) as Hmax.
  destruct (Qltb (np.min col) (np.max col)) eqn:E.
  - apply Qltb_lt in E. split.
    + apply Qle_shift_div_l; lra.
    + apply Qle_shift_div_r; lra.
  - split; discriminate.
Qed.

Lemma scaled_constant (col : list Q) (x : Q) :
  np.max col == np.min col -> scaled col x = 0.5.
Proof.
  intro H. unfold scaled.
  replace (Qltb (np.min col) (np.max col)) with false; [reflexivity|].
  symmetry. apply Qltb_ge. rewrite H. apply Qle_refl.
Qed.

Lemma combine_map_map {A B C : Type} (f : A -> B) (g : A -> C) (l : list A) :
  combine (map f l) (map g l) = map (fun a => (f a, g a)) l.
Proof. induction l as [|a l IH]; cbn; [reflexivity|now rewrite IH]. Qed.

(** One pass of the loop, on a matrix given row by row. *)
Lemma scale_column_map {A : Type} (row : A -> list Q) (l : list A) (i : nat) :
  scale_column (map row l) i =
  map (fun a => set_nth i (scaled (map (fun a => nth i (row a) 0) l)
                                  (nth i (row a) 0)) (row a)) l.
Proof.
  unfold scale_column, column, scaled, set_column. rewrite map_map.
  destruct (Qltb _ _); rewrite map_map, combine_map_map, map_map; reflexivity.
Qed.

(** [_preprocess] in closed form: every value is scaled within its column. *)
Lemma preprocess_scaled (candles : list OHLCVData) :
  candles <> [] ->
  _preprocess candles =
  Ok (map (fun c => map (fun i => scaled (map (feature i) candles) (feature i c))
                        (seq 0 5)) candles).
Proof.
  destruct candles as [|c0 cs]; [congruence|]. intros _.
  remember (c0 :: cs) as candles eqn:Ecs.
  unfold _preprocess.
  destruct (map _ candles) as [|r rs] eqn:Edata; [subst; discriminate|].
  assert (Hr : List.length r = 5%nat) by (subst; injection Edata as <- _; reflexivity).
  rewrite Hr, <- Edata. cbn [seq fold_left].
  rewrite !scale_column_map. reflexivity.
Qed.

(** ** Degenerate levels *)

Lemma calculate_levels_zero_risk (direction : SignalDirection)
  (candles : list OHLCVData) (entry stop_loss rr_ratio : np.float64)
  (take_profits : list np.float64) :
  _calculate_levels direction candles = Ok (entry, stop_loss, take_profits, rr_ratio) ->
  np.gt (np.abs (np.sub entry stop_loss)) (np.Fin 0) = false ->
  rr_ratio = np.Fin 1.0.
Proof.
  unfold _calculate_levels.
  destruct (py.last candles) as [c|]; [|discriminate]. cbn [py.bind].
  destruct direction; cbn [py.index nth_error py.bind];
    intro H; injection H as <- <- <- <-; intro Hgt;
    match goal with
    | |- (if ?b then _ else _) = _ =>
        replace b with false by (symmetry; exact Hgt); reflexivity
    end.
Qed.

Lemma zero_risk_not_gt (risk : np.float64) :
  np.eqv risk (np.Fin 0) -> np.gt risk (np.Fin 0) = false.
Proof.
  destruct risk as [r|]; [|reflexivity]. cbn. intro H.
  apply Qltb_ge. rewrite H. apply Qle_refl.
Qed.

(** C7. On every non-empty window, normalization returns a matrix (it does
    not raise) whose values all lie in [0, 1] and in which every value of a
    constant column (max == min) is 0.5; the level calculation returns
    levels (it does not raise), with risk/reward 1.0 when
    |entry - stop_loss| is zero. *)
Theorem degenerate_inputs_do_not_raise (candles : list OHLCVData)
  (direction : SignalDirection) (Hwindow : candles <> []) :
  (exists data,
     _preprocess candles = Ok data /\
     List.length data = List.length candles /\
     (forall row x, In row data -> In x row -> 0 <= x <= 1) /\
     (forall i, (i < 5)%nat ->
        np.max (map (feature i) candles) == np.min (map (feature i) candles) ->
        forall row, In row data -> nth i row 0 = 0.5)) /\
  (exists entry stop_loss take_profits rr_ratio,
     _calculate_levels direction candles =
     Ok (entry, stop_loss, take_profits, rr_ratio) /\
     (np.eqv (np.abs (np.sub entry stop_loss)) (np.Fin 0) ->
      rr_ratio = np.Fin 1.0)).
Proof.
  split.
  - eexists. split; [now apply preprocess_scaled|].
    split; [apply length_map|]. split.
    + intros row x Hrow Hx.
      apply in_map_iff in Hrow as [c [<- Hc]].
      apply in_map_iff in Hx as [i [<- _]].
      apply scaled_bounds. apply in_map_iff. now exists c.
    + intros i Hi Hconst row Hrow.
      apply in_map_iff in Hrow as [c [<- Hc]].
      do 5 (destruct i as [|i]; [now apply scaled_constant|]). lia.
  - destruct (calculate_levels_total direction candles Hwindow)
      as [entry [stop_loss [take_profits [rr_ratio H]]]].
    exists entry, stop_loss, take_profits, rr_ratio. split; [exact H|].
    intro Hrisk. apply (calculate_levels_zero_risk _ _ _ _ _ _ H).
    now apply zero_risk_not_gt.
Qed.

(** [degenerate_inputs_do_not_raise] on the window [flat], direction LONG. *)
Lemma degenerate_inputs_do_not_raise_witness :
  (exists data,
     _preprocess flat = Ok data /\
     List.length data = List.length flat /\
     (forall row x, In row data -> In x row -> 0 <= x <= 1) /\
     (forall i, (i < 5)%nat ->
        np.max (map (feature i) flat) == np.min (map (feature i) flat) ->
        forall row, In row data -> nth i row 0 = 0.5)) /\
  (exists entry stop_loss take_profits rr_ratio,
     _calculate_levels LONG flat =
     Ok (entry, stop_loss, take_profits, rr_ratio) /\
     (np.eqv (np.abs (np.sub entry stop_loss)) (np.Fin 0) ->
      rr_ratio = np.Fin 1.0)).
Proof.
  apply (degenerate_inputs_do_not_raise flat LONG).
  discriminate.
Defined.

(** On the window [flat] both degenerate cases occur: every column is
    constant and the LONG risk is zero. *)
Example flat_window_is_degenerate :
  (forall i, (i < 5)%nat ->
     np.max (map (feature i) flat) == np.min (map (feature i) flat)) /\
  exists entry stop_loss take_profits,
    _calculate_levels LONG flat = Ok (entry, stop_loss, take_profits, np.Fin 1.0) /\
    np.eqv (np.abs (np.sub entry stop_loss)) (np.Fin 0).
Proof.
  split.
  - intros i Hi. do 5 (destruct i as [|i]; [vm_compute; reflexivity|]). lia.
  - do 3 eexists. split; vm_compute; reflexivity.
Qed.

(** ** Sums and means *)

Lemma fold_Qplus_acc (l : list Q) :
  forall a, fold_left Qplus l a == a + fold_left Qplus l 0.
Proof.
  induction l as [|x l IH]; intro a; cbn [fold_left].
  - ring.
  - rewrite (IH (a + x)), (IH (0 + x)). ring.
Qed.

Lemma sum_cons (x : Q) (l : list Q) : py.sum (x :: l) == x + py.sum l.
Proof.
  unfold py.sum. cbn [fold_left]. rewrite fold_Qplus_acc. ring.
Qed.

Lemma inject_length_cons {A : Type} (x : A) (l : list A) :
  inject_Z (Z.of_nat (List.length (x :: l))) ==
  inject_Z (Z.of_nat (List.length l)) + 1.
Proof.
  cbn [List.length]. rewrite Nat2Z.inj_succ. unfold Z.succ.
  now rewrite inject_Z_plus.
Qed.


Lemma inject_length_pos {A : Type} (l : list A) :
  l <> [] -> 0 < inject_Z (Z.of_nat (List.length l)).
Proof.
  intro H. change 0 with (inject_Z 0). rewrite <- Zlt_Qlt.
  destruct l; [congruence|]. cbn [List.length]. lia.
Qed.

Lemma sum_bounds (lo hi : Q) (l : list Q) :
  Forall (fun x => lo <= x <= hi) l ->
  lo * inject_Z (Z.of_nat (List.length l)) <= py.sum l <=
  hi * inject_Z (Z.of_nat (List.length l)).
Proof.
  induction 1 as [|x l [Hlo Hhi] _ [IHlo IHhi]].
  - cbn. split; rewrite Qmult_0_r; apply Qle_refl.
  - rewrite sum_cons, inject_length_cons. split; lra.
Qed.

Lemma sum_pos (l : list Q) :
  l <> [] -> Forall (fun x => 0 < x) l -> 0 < py.sum l.
Proof.
  intros Hne H. induction H as [|x l Hx Hl IH]; [congruence|].
  rewrite sum_cons. destruct l as [|y l].
  - cbn. lra.
  - assert (0 < py.sum (y :: l)) by (apply IH; discriminate). lra.
Qed.


Lemma mean_bounds (lo hi : Q) (l : list Q) :
  l <> [] -> Forall (fun x => lo <= x <= hi) l ->
  lo <= py.sum l / inject_Z (Z.of_nat (List.length l)) <= hi.
Proof.
  intros Hne H. pose proof (inject_length_pos l Hne) as Hn.
  destruct (sum_bounds lo hi l H) as [H1 H2]. split.
  - apply Qle_shift_div_l; assumption.
  - apply Qle_shift_div_r; assumption.
Qed.

Lemma div_Ok (a b : Q) : ~ b == 0 -> py.div a b = Ok (a / b).
Proof.
  intro H. unfold py.div. destruct (Qeq_bool b 0) eqn:E; [|reflexivity].
  apply Qeq_bool_iff in E. contradiction.
Qed.

(** ** [assess] on the requests the validators accept *)

Lemma pairwise_total (prices : list Q) :
  Forall (fun p => 0 < p) prices ->
  exists changes,
    py.pairwise (fun prev cur => py.div (Qabs (cur - prev)) prev) prices = Ok changes.
Proof.
  induction 1 as [|x l Hx Hl IH]; [now exists []|].
  destruct l as [|y l]; [now exists []|].
  destruct IH as [changes IH].
  exists (Qabs (y - x) / x :: changes).
  cbn [py.pairwise]. rewrite div_Ok by lra. cbn [py.bind].
  cbn [py.pairwise] in IH. rewrite IH. reflexivity.
Qed.

Lemma max_change_total (prices : list Q) :
  Forall (fun p => 0 < p) prices -> exists m, max_change prices = Ok m.
Proof.
  intro H. destruct (pairwise_total prices H) as [changes Hc].
  unfold max_change. rewrite Hc. cbn [py.bind].
  destruct changes; cbn; eauto.
Qed.

Lemma volatility_pct_total (cs : list OHLCVData) :
  cs <> [] -> Forall (fun c => 0 < close c) cs ->
  exists v, volatility_pct cs = Ok v.
Proof.
  intros Hne Hpos. unfold volatility_pct.
  assert (Hw : last_n 14 cs <> []).
  { intro E. apply (f_equal (@List.length _)) in E.
    rewrite last_n_length in E. cbn in E.
    destruct cs; [congruence|]. cbn in E. lia. }
  rewrite div_Ok.
  2:{ assert (0 < inject_Z (Z.of_nat (List.length (map high (last_n 14 cs))))).
      { apply inject_length_pos. intro E. apply map_eq_nil in E. contradiction. }
      lra. }
  cbn [py.bind].
  rewrite div_Ok; [cbn [py.bind]; eauto|].
  assert (0 < py.sum (map close (last_n 14 cs))).
  { apply sum_pos.
    - intro E. apply map_eq_nil in E. contradiction.
    - apply Forall_forall. intros x Hx.
      apply in_map_iff in Hx as [c [<- Hc]].
      rewrite Forall_forall in Hpos. apply Hpos. eapply last_n_In, Hc. }
  assert (0 < py.sum (map close (last_n 14 cs)) / 14)
    by (apply Qlt_shift_div_l; lra).
  lra.
Qed.

Lemma detect_drift_spec (settings : config.Settings) (self : RiskAssessor) :
  _detect_drift settings self =
  (Ok (drift_flag settings (historical_accuracy self)), self).
Proof.
  unfold _detect_drift, drift_flag, mbind, get_historical_accuracy, ret.
  destruct (_ <? _)%nat; reflexivity.
Qed.

Lemma mbind_Ok {A B : Type} (m : method A) (k : A -> method B) (a : A)
  (self self' : RiskAssessor) :
  m self = (Ok a, self') -> mbind m k self = k a self'.
Proof. intro H. unfold mbind. now rewrite H. Qed.

Lemma mbind_pure_Ok {A B : Type} (r : result A) (k : A -> method B) (a : A)
  (self : RiskAssessor) :
  r = Ok a -> mbind (pure r) k self = k a self.
Proof. intros ->. reflexivity. Qed.

Lemma append_if_Ok (cond : bool) (factor : result RiskFactor) (f : RiskFactor)
  (mitigation : string) (factors : list RiskFactor) (mitigations : list string) :
  (cond = true -> factor = Ok f) ->
  append_if cond factor mitigation (factors, mitigations) =
  Ok (factors ++ (if cond then [f] else []),
      mitigations ++ (if cond then [mitigation] else [])).
Proof.
  intro H. unfold append_if. destruct cond.
  - now rewrite H.
  - cbn [fst snd]. now rewrite !app_nil_r.
Qed.

Lemma fired_cons (b : bool) (s : string * string * Q)
  (cs : list (bool * (string * string * Q))) :
  fired ((b, s) :: cs) = (if b then [s] else []) ++ fired cs.
Proof. unfold fired. cbn. now destruct b. Qed.

Lemma map_if_singleton {A B : Type} (g : A -> B) (b : bool) (a : A) :
  map g (if b then [a] else []) = if b then [g a] else [].
Proof. now destruct b. Qed.

Lemma RiskFactor_score_bounds (b : bool) (f : RiskFactor) :
  3 <= score f <= 9 ->
  Forall (fun f => 3 <= score f <= 9) (if b then [f] else []).
Proof. intro H. destruct b; repeat constructor; apply H. Qed.

Lemma severity_bounds (fs : list RiskFactor) :
  Forall (fun f => 3 <= score f <= 9) fs ->
  1 <= match fs with
       | [] => 1.0
       | _ => py.sum (map score fs) / inject_Z (Z.of_nat (List.length fs))
       end <= 9.
Proof.
  intro H. destruct fs as [|f fs]; [split; discriminate|].
  remember (f :: fs) as l eqn:El.
  assert (Hne : map score l <> []) by (subst; discriminate).
  assert (Hb : Forall (fun x => 3 <= x <= 9) (map score l)).
  { apply Forall_forall. intros x Hx. apply in_map_iff in Hx as [g [<- Hg]].
    rewrite Forall_forall in H. now apply H. }
  pose proof (mean_bounds 3 9 (map score l) Hne Hb) as Hm.
  rewrite length_map in Hm. lra.
Qed.

Lemma occurrence_bounds (n : nat) :
  1 <= inject_Z (Z.min 10 (Z.of_nat n * 2 + 1)) <= 10.
Proof.
  change 1 with (inject_Z 1). change 10 with (inject_Z 10).
  rewrite <- !Zle_Qle. lia.
Qed.

Lemma rpn_bounds (severity occurrence detection : Q) :
  1 <= severity <= 9 -> 1 <= occurrence <= 10 ->
  detection == 4 \/ detection == 6 ->
  0 <= severity * occurrence * detection <= 1000.
Proof.
  intros Hs Ho Hd.
  assert (H1 : 0 <= severity * occurrence) by (apply Qmult_le_0_compat; lra).
  assert (H2 : severity * occurrence <= 9 * 10).
  { apply Qle_trans with (9 * occurrence).
    - apply Qmult_le_compat_r; lra.
    - apply Qmult_le_l; lra. }
  destruct Hd as [-> | ->]; lra.
Qed.

Lemma RiskAssessment_new_Ok (level : RiskLevel) (rpn severity occurrence detection : Q)
  (fs : list RiskFactor) (ms : list string) (stale drift agreed : bool) :
  0 <= rpn <= 1000 -> 1 <= severity <= 10 -> 1 <= occurrence <= 10 ->
  1 <= detection <= 10 ->
  RiskAssessment_new level rpn severity occurrence detection fs ms stale drift agreed =
  Ok {| risk_level := level; risk_score := rpn; severity_score := severity;
        occurrence_score := occurrence; detection_score := detection;
        factors := fs; mitigations := ms; is_stale_data := stale;
        is_drift_detected := drift; is_shadow_model_agreed := agreed |}.
Proof.
  intros [? ?] [? ?] [? ?] [? ?]. unfold RiskAssessment_new.
  rewrite !Field_ge_le_Ok by assumption. reflexivity.
Qed.

(** On an accepted request [assess] returns an assessment and the assessor
    unchanged; its factors are those of the checks that fire, in order. *)
Lemma assess_valid (settings : config.Settings) (now_ms : Z)
  (request : SignalRequest) (direction : SignalDirection) (confidence : Q)
  (shadow_agreed : bool) (self : RiskAssessor) :
  SignalRequest_valid request = true ->
  exists m v c ra,
    max_change (map close (candles request)) = Ok m /\
    volatility_pct (candles request) = Ok v /\
    py.last (candles request) = Ok c /\
    assess settings now_ms request direction confidence shadow_agreed self
    = (Ok ra, self) /\
    map summary (factors ra) =
    fired (checks settings now_ms request direction confidence shadow_agreed
             self m v c) /\
    is_stale_data ra =
    (now_ms - request_timestamp request >? STALE_DATA_MAX_AGE_MS settings)%Z /\
    is_drift_detected ra = drift_flag settings (historical_accuracy self) /\
    is_shadow_model_agreed ra = shadow_agreed.
Proof.
  intro Hvalid.
  pose proof (SignalRequest_valid_nonempty _ Hvalid) as Hne.
  destruct (SignalRequest_valid_inv _ Hvalid) as [Hlen Hall].
  rewrite Forall_forall in Hall.
  destruct (max_change_total (map close (candles request))) as [m Hm].
  { apply Forall_forall. intros p Hp. apply in_map_iff in Hp as [c [<- Hc]].
    now apply Hall. }
  destruct (volatility_pct_total (candles request) Hne) as [v Hv].
  { apply Forall_forall. intros c Hc. now apply Hall. }
  destruct (last_nonempty _ Hne) as [c [Hc Hin]].
  exists m, v, c. eexists.
  split; [exact Hm|]. split; [exact Hv|]. split; [exact Hc|].
  split.
  - unfold assess. cbv zeta.
    erewrite mbind_pure_Ok by (apply append_if_Ok; intros _; reflexivity).
    cbv beta iota.
    erewrite mbind_pure_Ok by exact Hm. cbv beta iota.
    do 3 (erewrite mbind_pure_Ok by (apply append_if_Ok; intros _; reflexivity);
          cbv beta iota).
    erewrite mbind_Ok by apply detect_drift_spec. cbv beta iota.
    erewrite mbind_pure_Ok by (apply append_if_Ok; intros _; reflexivity).
    cbv beta iota.
    erewrite mbind_pure_Ok by exact Hv. cbv beta iota.
    erewrite mbind_pure_Ok by (apply append_if_Ok; intros _; reflexivity).
    cbv beta iota.
    erewrite mbind_pure_Ok by exact Hc. cbv beta iota.
    erewrite mbind_pure_Ok.
    2:{ apply append_if_Ok. intro Hcond. rewrite div_Ok; [reflexivity|].
        apply Qltb_lt in Hcond.
        assert (0 <= volume c) by (apply Hall; exact Hin). lra. }
    cbv beta iota.
    erewrite mbind_pure_Ok by (apply append_if_Ok; intros _; reflexivity).
    cbv beta iota.
    match goal with
    | |- pure (RiskAssessment_new _ _ _ _ _ ?fs _ _ _ _) _ = _ =>
        assert (Hfs : Forall (fun f => 3 <= score f <= 9) fs)
    end.
    { repeat (apply Forall_app; split); try apply Forall_nil;
        apply RiskFactor_score_bounds; cbn; split; discriminate. }
    unfold pure. rewrite RiskAssessment_new_Ok; [reflexivity| | | | ].
    + apply rpn_bounds;
        [ apply severity_bounds, Hfs
        | apply occurrence_bounds
        | destruct shadow_agreed; [left|right]; reflexivity ].
    + destruct (severity_bounds _ Hfs). split; lra.
    + apply occurrence_bounds.
    + destruct shadow_agreed; split; discriminate.
  - cbn [factors is_stale_data is_drift_detected is_shadow_model_agreed].
    split; [|repeat split].
    rewrite !map_app, !map_if_singleton. unfold checks.
    rewrite !fired_cons. cbn [map app summary name category score].
    unfold fired. cbn [filter map]. rewrite app_nil_r, <- !app_assoc.
    reflexivity.
Qed.

Lemma fired_In (s : string * string * Q) (cs : list (bool * (string * string * Q))) :
  In s (fired cs) <-> In (true, s) cs.
Proof.
  unfold fired. rewrite in_map_iff. split.
  - intros [[b s'] [Hs H]]. cbn in Hs. subst s'.
    apply filter_In in H as [H Hb]. cbn in Hb. now subst b.
  - intro H. exists (true, s). split; [reflexivity|].
    apply filter_In. now split.
Qed.

Lemma fired_nil (cs : list (bool * (string * string * Q))) :
  fired cs = [] <-> forall chk, In chk cs -> fst chk = false.
Proof.
  split.
  - intros H [b s] Hin. destruct b; [|reflexivity].
    apply fired_In in Hin. rewrite H in Hin. destruct Hin.
  - intro H. destruct (fired cs) as [|s l] eqn:E; [reflexivity|].
    assert (Hs : In s (fired cs)) by (rewrite E; now left).
    apply fired_In in Hs. apply H in Hs. discriminate.
Qed.

(** A factor of a given name, category and severity is reported exactly
    when the check that carries them fires. *)
Lemma factor_reported (ra : RiskAssessment)
  (cs : list (bool * (string * string * Q))) (s : string * string * Q) :
  map summary (factors ra) = fired cs ->
  (exists f, In f (factors ra) /\ summary f = s) <-> In (true, s) cs.
Proof.
  intro H. rewrite <- fired_In, <- H, in_map_iff.
  split; intros [f [H1 H2]]; exists f; tauto.
Qed.

(** C1, as stated, fails: on the window [steady], with a fresh timestamp,
    confidence 0.9, agreeing models, direction LONG and no history, no
    check fires and the returned factor list is empty. *)
Lemma no_check_fires_empty_factors :
  SignalRequest_valid (request_of steady 1000) = true /\
  exists m v c ra,
    max_change (map close steady) = Ok m /\
    volatility_pct steady = Ok v /\
    py.last steady = Ok c /\
    (forall chk,
       In chk (checks config.settings 2000 (request_of steady 1000) LONG 0.9
                 true __init__ m v c) -> fst chk = false) /\
    fst (assess config.settings 2000 (request_of steady 1000) LONG 0.9 true
           __init__) = Ok ra /\
    factors ra = [].
Proof.
  split; [vm_compute; reflexivity|].
  do 4 eexists.
  split; [vm_compute; reflexivity|].
  split; [vm_compute; reflexivity|].
  split; [vm_compute; reflexivity|].
  split.
  - intros chk H. vm_compute in H.
    repeat (destruct H as [<- | H]; [reflexivity|]). destruct H.
  - split; vm_compute; reflexivity.
Qed.

(** C1, amended. On every accepted request [assess] returns an assessment
    whose factor list holds one factor per check that fires, in the order
    of the checks; it is empty exactly when none of the eight checks fires,
    and no sentinel entry is added. *)
Theorem factors_are_the_fired_checks (settings : config.Settings) (now_ms : Z)
  (request : SignalRequest) (direction : SignalDirection) (confidence : Q)
  (shadow_agreed : bool) (self : RiskAssessor)
  (Hvalid : SignalRequest_valid request = true) :
  exists m v c ra,
    max_change (map close (candles request)) = Ok m /\
    volatility_pct (candles request) = Ok v /\
    py.last (candles request) = Ok c /\
    fst (assess settings now_ms request direction confidence shadow_agreed self)
    = Ok ra /\
    map summary (factors ra) =
    fired (checks settings now_ms request direction confidence shadow_agreed
             self m v c) /\
    (factors ra = [] <->
     forall chk,
       In chk (checks settings now_ms request direction confidence
                 shadow_agreed self m v c) -> fst chk = false).
Proof.
  destruct (assess_valid settings now_ms request direction confidence
              shadow_agreed self Hvalid)
    as [m [v [c [ra [Hm [Hv [Hc [Ha [Hf _]]]]]]]]].
  exists m, v, c, ra. rewrite Ha.
  repeat (split; [assumption || reflexivity|]).
  rewrite <- fired_nil, <- Hf. split.
  - now intros ->.
  - apply map_eq_nil.
Qed.

(** [factors_are_the_fired_checks] on a stale, low-confidence, disputed
    NEUTRAL signal over the window [steady]. *)
Lemma factors_are_the_fired_checks_witness :
  exists m v c ra,
    max_change (map close (candles (request_of steady 1000))) = Ok m /\
    volatility_pct (candles (request_of steady 1000)) = Ok v /\
    py.last (candles (request_of steady 1000)) = Ok c /\
    fst (assess config.settings 20000 (request_of steady 1000) NEUTRAL 0.5 false
           __init__) = Ok ra /\
    map summary (factors ra) =
    fired (checks config.settings 20000 (request_of steady 1000) NEUTRAL 0.5
             false __init__ m v c) /\
    (factors ra = [] <->
     forall chk,
       In chk (checks config.settings 20000 (request_of steady 1000) NEUTRAL
                 0.5 false __init__ m v c) -> fst chk = false).
Proof.
  apply (factors_are_the_fired_checks config.settings 20000
           (request_of steady 1000) NEUTRAL 0.5 false __init__).
  vm_compute. reflexivity.
Defined.

(** ** Drift *)

Lemma drift_flag_iff (settings : config.Settings) (h : list Q) :
  drift_flag settings h = true <->
  (10 <= List.length h)%nat /\
  py.sum (last_n 10 h) / 10 < 1 - DRIFT_THRESHOLD settings.
Proof.
  unfold drift_flag. rewrite andb_true_iff, negb_true_iff, Nat.ltb_ge, Qltb_lt.
  reflexivity.
Qed.

(** The checks that carry a given factor name. *)
Lemma check_named (settings : config.Settings) (now_ms : Z)
  (request : SignalRequest) (direction : SignalDirection) (confidence : Q)
  (shadow_agreed : bool) (self : RiskAssessor) (m v : Q) (c : OHLCVData)
  (n cat : string) (sev : Q) :
  In (true, (n, cat, sev))
     (checks settings now_ms request direction confidence shadow_agreed self m v c) ->
  (n = "Model Drift Detected" ->
   drift_flag settings (historical_accuracy self) = true /\
   cat = "model" /\ sev = 9.0) /\
  (n = "High Volatility" ->
   Qltb 5 v = true /\ cat = "market" /\ sev = 5.0).
Proof.
  unfold checks. intro H.
  repeat (destruct H as [H | H];
          [injection H as Hb <- <- <-; split; intro E; try discriminate E;
           repeat split; now symmetry|]).
  destruct H.
Qed.

(** C4. On every accepted request [assess] returns an assessment whose
    drift flag is set (and whose factors include "Model Drift Detected", of
    category model and severity 9.0) if and only if the history holds at
    least 10 outcomes and the mean of the most recent 10 is strictly below
    1 - drift_threshold; with fewer than 10 entries the flag is false
    whatever the entries are. *)
Theorem drift_flagged_iff (settings : config.Settings) (now_ms : Z)
  (request : SignalRequest) (direction : SignalDirection) (confidence : Q)
  (shadow_agreed : bool) (self : RiskAssessor)
  (Hvalid : SignalRequest_valid request = true) :
  exists ra,
    fst (assess settings now_ms request direction confidence shadow_agreed self)
    = Ok ra /\
    (is_drift_detected ra = true <->
     (10 <= List.length (historical_accuracy self))%nat /\
     py.sum (last_n 10 (historical_accuracy self)) / 10
     < 1 - config.risk_drift_threshold settings) /\
    ((exists f, In f (factors ra) /\
                summary f = ("Model Drift Detected", "model", 9.0)) <->
     is_drift_detected ra = true) /\
    (In "Model Drift Detected" (map name (factors ra)) <->
     is_drift_detected ra = true) /\
    ((List.length (historical_accuracy self) < 10)%nat ->
     is_drift_detected ra = false).
Proof.
  destruct (assess_valid settings now_ms request direction confidence
              shadow_agreed self Hvalid)
    as [m [v [c [ra [_ [_ [_ [Ha [Hf [_ [Hd _]]]]]]]]]]].
  exists ra. rewrite Ha, Hd. split; [reflexivity|].
  split; [apply drift_flag_iff|].
  assert (Hrep : (exists f, In f (factors ra) /\
                   summary f = ("Model Drift Detected", "model", 9.0)) <->
                 drift_flag settings (historical_accuracy self) = true).
  { rewrite (factor_reported ra _ _ Hf). split.
    - intro H. now apply check_named in H as [[H _] _].
    - intro H. unfold checks. rewrite H. do 4 right. now left. }
  split; [exact Hrep|]. split.
  - rewrite <- Hrep, in_map_iff. split.
    + intros [f [Hn Hin]]. exists f. split; [exact Hin|].
      assert (Hs : In (true, summary f)
                 (checks settings now_ms request direction confidence
                    shadow_agreed self m v c)).
      { apply (factor_reported ra _ _ Hf). now exists f. }
      unfold summary in *. rewrite Hn in *.
      apply check_named in Hs as [[_ [-> ->]] _]; reflexivity.
    + intros [f [Hin Hs]]. exists f. split; [|exact Hin].
      unfold summary in Hs. now injection Hs.
  - intro Hlt. destruct (drift_flag settings (historical_accuracy self)) eqn:E;
      [|reflexivity].
    apply drift_flag_iff in E. lia.
Qed.

(** [drift_flagged_iff] on an assessor with ten wrong outcomes recorded. *)
Lemma drift_flagged_iff_witness :
  exists ra,
    fst (assess config.settings 2000 (request_of steady 1000) LONG 0.9 true
           drifting) = Ok ra /\
    (is_drift_detected ra = true <->
     (10 <= List.length (historical_accuracy drifting))%nat /\
     py.sum (last_n 10 (historical_accuracy drifting)) / 10
     < 1 - config.risk_drift_threshold config.settings) /\
    ((exists f, In f (factors ra) /\
                summary f = ("Model Drift Detected", "model", 9.0)) <->
     is_drift_detected ra = true) /\
    (In "Model Drift Detected" (map name (factors ra)) <->
     is_drift_detected ra = true) /\
    ((List.length (historical_accuracy drifting) < 10)%nat ->
     is_drift_detected ra = false).
Proof.
  apply (drift_flagged_iff config.settings 2000 (request_of steady 1000) LONG
           0.9 true drifting).
  vm_compute. reflexivity.
Defined.

(** With ten wrong outcomes recorded the flag is set; with nine it is not. *)
Example drift_needs_ten_outcomes :
  fst (_detect_drift config.settings drifting) = Ok true /\
  fst (_detect_drift config.settings
         (record_outcomes (repeat ("prediction", false) 9) __init__)) = Ok false.
Proof. split; vm_compute; reflexivity. Qed.

(** ** Volatility *)

Lemma volatility_pct_formula (cs : list OHLCVData) (v : Q) :
  (14 <= List.length cs)%nat ->
  volatility_pct cs = Ok v ->
  v = avg_range cs / avg_close cs * 100.
Proof.
  intros Hlen. unfold volatility_pct, avg_range, avg_close.
  rewrite combine_map_map, map_map, length_map, last_n_length.
  replace (Nat.min 14 (List.length cs)) with 14%nat by lia.
  cbn [fst snd].
  change (inject_Z (Z.of_nat 14)) with 14.
  unfold py.div.
  change (Qeq_bool 14 0) with false. cbn [py.bind].
  destruct (Qeq_bool _ 0); cbn [py.bind]; intro H; [discriminate|].
  now injection H as <-.
Qed.

(** C5, as stated, fails: on the window [gapped] the average true range
    over the average close is above 5%, and no High Volatility factor is
    reported: the check uses the high-low range of each candle, which is 0
    there. *)
Lemma true_range_above_5_percent_not_flagged :
  SignalRequest_valid (request_of gapped 1000) = true /\
  (exists atr,
     average_true_range gapped = np.Fin atr /\
     5 # 100 < atr / avg_close gapped) /\
  exists ra,
    fst (assess config.settings 2000 (request_of gapped 1000) LONG 0.9 true
           __init__) = Ok ra /\
    ~ In "High Volatility" (map name (factors ra)).
Proof.
  split; [vm_compute; reflexivity|]. split.
  - eexists. split; vm_compute; reflexivity.
  - eexists. split; [vm_compute; reflexivity|]. cbn. tauto.
Qed.

(** C5, amended. On every accepted request [assess] reports the High
    Volatility factor (category market, severity 5.0) exactly when the mean
    high-low range of the last 14 candles divided by their mean close
    exceeds 5%. *)
Theorem high_volatility_iff (settings : config.Settings) (now_ms : Z)
  (request : SignalRequest) (direction : SignalDirection) (confidence : Q)
  (shadow_agreed : bool) (self : RiskAssessor)
  (Hvalid : SignalRequest_valid request = true) :
  exists ra,
    fst (assess settings now_ms request direction confidence shadow_agreed self)
    = Ok ra /\
    ((exists f, In f (factors ra) /\
                summary f = ("High Volatility", "market", 5.0)) <->
     5 # 100 < avg_range (candles request) / avg_close (candles request)) /\
    (In "High Volatility" (map name (factors ra)) <->
     5 # 100 < avg_range (candles request) / avg_close (candles request)).
Proof.
  destruct (assess_valid settings now_ms request direction confidence
              shadow_agreed self Hvalid)
    as [m [v [c [ra [_ [Hv [_ [Ha [Hf _]]]]]]]]].
  exists ra. rewrite Ha. split; [reflexivity|].
  assert (Hlen : (14 <= List.length (candles request))%nat)
    by (apply SignalRequest_valid_inv in Hvalid as [[H _] _]; lia).
  apply (volatility_pct_formula _ _ Hlen) in Hv.
  assert (Hthr : Qltb 5 v = true <->
                 5 # 100 < avg_range (candles request) / avg_close (candles request)).
  { rewrite Qltb_lt, Hv.
    set (r := avg_range (candles request) / avg_close (candles request)).
    split; intro H; lra. }
  assert (Hrep : (exists f, In f (factors ra) /\
                   summary f = ("High Volatility", "market", 5.0)) <->
                 Qltb 5 v = true).
  { rewrite (factor_reported ra _ _ Hf). split.
    - intro H. now apply check_named in H as [_ [H _]].
    - intro H. unfold checks. rewrite H. do 5 right. now left. }
  split; [now rewrite Hrep|].
  rewrite <- Hthr, <- Hrep, in_map_iff. split.
  - intros [f [Hn Hin]]. exists f. split; [exact Hin|].
    assert (Hs : In (true, summary f)
               (checks settings now_ms request direction confidence
                  shadow_agreed self m v c)).
    { apply (factor_reported ra _ _ Hf). now exists f. }
    unfold summary in *. rewrite Hn in *.
    apply check_named in Hs as [_ [_ [-> ->]]]; reflexivity.
  - intros [f [Hin Hs]]. exists f. split; [|exact Hin].
    unfold summary in Hs. now injection Hs.
Qed.

(** [high_volatility_iff] on the window [ranging]. *)
Lemma high_volatility_iff_witness :
  exists ra,
    fst (assess config.settings 2000
           (request_of ranging 1000)
           LONG 0.9 true __init__) = Ok ra /\
    ((exists f, In f (factors ra) /\
                summary f = ("High Volatility", "market", 5.0)) <->
     5 # 100 < avg_range ranging / avg_close ranging) /\
    (In "High Volatility" (map name (factors ra)) <->
     5 # 100 < avg_range ranging / avg_close ranging).
Proof.
  apply (high_volatility_iff config.settings 2000
           (request_of ranging 1000)
           LONG 0.9 true __init__).
  vm_compute. reflexivity.
Defined.

(** * Further properties *)

Import notions main.

(** ** The FMEA scores of [assess] *)

Lemma length_if_singleton {A : Type} (b : bool) (a : A) :
  List.length (if b then [a] else []) = if b then 1%nat else 0%nat.
Proof. now destruct b. Qed.

Lemma combine_app_same {A B : Type} (l1 l2 : list A) (m1 m2 : list B) :
  List.length l1 = List.length m1 ->
  combine (l1 ++ l2) (m1 ++ m2) = combine l1 m1 ++ combine l2 m2.
Proof.
  revert m1. induction l1 as [|a l1 IH]; intros [|b m1] H; try discriminate.
  - reflexivity.
  - cbn. f_equal. apply IH. now injection H.
Qed.

Lemma paired_nil : paired [] [].
Proof. split; [reflexivity|constructor]. Qed.

Lemma paired_step (fs : list RiskFactor) (ms : list string) (b : bool)
  (f : RiskFactor) (m : string) :
  paired fs ms -> In (name f, m) mitigation_table ->
  paired (fs ++ (if b then [f] else [])) (ms ++ (if b then [m] else [])).
Proof.
  intros [Hlen Hall] Hin. destruct b; [|now rewrite !app_nil_r].
  split.
  - rewrite !length_app. cbn. lia.
  - rewrite map_app, combine_app_same by (rewrite length_map; congruence).
    apply Forall_app. split; [exact Hall|].
    cbn [map combine]. apply Forall_cons; [exact Hin|apply Forall_nil].
Qed.

Ltac assess_step :=
  erewrite mbind_pure_Ok by (apply append_if_Ok; intros _; reflexivity);
  cbv beta iota.

(** The assessment [assess] returns on an accepted request, field by field. *)
Lemma assess_scores (settings : config.Settings) (now_ms : Z)
  (request : SignalRequest) (direction : SignalDirection) (confidence : Q)
  (shadow_agreed : bool) (self : RiskAssessor) :
  SignalRequest_valid request = true ->
  exists ra,
    assess settings now_ms request direction confidence shadow_agreed self
    = (Ok ra, self) /\
    Forall (fun f => 3 <= score f <= 9) (factors ra) /\
    paired (factors ra) (mitigations ra) /\
    severity_score ra =
      match factors ra with
      | [] => 1.0
      | _ => py.sum (map score (factors ra))
             / inject_Z (Z.of_nat (List.length (factors ra)))
      end /\
    occurrence_score ra =
      inject_Z (Z.min 10 (Z.of_nat (List.length (factors ra)) * 2 + 1)) /\
    detection_score ra = (if shadow_agreed then 4.0 else 6.0) /\
    risk_score ra = severity_score ra * occurrence_score ra * detection_score ra /\
    risk_level ra = band (risk_score ra).
Proof.
  intro Hvalid.
  pose proof (SignalRequest_valid_nonempty _ Hvalid) as Hne.
  destruct (SignalRequest_valid_inv _ Hvalid) as [Hlen Hall].
  rewrite Forall_forall in Hall.
  destruct (max_change_total (map close (candles request))) as [m Hm].
  { apply Forall_forall. intros p Hp. apply in_map_iff in Hp as [c [<- Hc]].
    now apply Hall. }
  destruct (volatility_pct_total (candles request) Hne) as [v Hv].
  { apply Forall_forall. intros c Hc. now apply Hall. }
  destruct (last_nonempty _ Hne) as [c [Hc Hin]].
  eexists. split.
  - unfold assess. cbv zeta.
    assess_step.
    erewrite mbind_pure_Ok by exact Hm. cbv beta iota.
    do 3 assess_step.
    erewrite mbind_Ok by apply detect_drift_spec. cbv beta iota.
    assess_step.
    erewrite mbind_pure_Ok by exact Hv. cbv beta iota.
    assess_step.
    erewrite mbind_pure_Ok by exact Hc. cbv beta iota.
    erewrite mbind_pure_Ok.
    2:{ apply append_if_Ok. intro Hcond. rewrite div_Ok; [reflexivity|].
        apply Qltb_lt in Hcond.
        assert (0 <= volume c) by (apply Hall; exact Hin). lra. }
    cbv beta iota.
    assess_step.
    match goal with
    | |- pure (RiskAssessment_new _ _ _ _ _ ?fs _ _ _ _) _ = _ =>
        assert (Hfs : Forall (fun f => 3 <= score f <= 9) fs)
    end.
    { repeat (apply Forall_app; split); try apply Forall_nil;
        apply RiskFactor_score_bounds; cbn; split; discriminate. }
    unfold pure. rewrite RiskAssessment_new_Ok; [reflexivity| | | | ].
    + apply rpn_bounds;
        [ apply severity_bounds, Hfs
        | apply occurrence_bounds
        | destruct shadow_agreed; [left|right]; reflexivity ].
    + destruct (severity_bounds _ Hfs). split; lra.
    + apply occurrence_bounds.
    + destruct shadow_agreed; split; discriminate.
  - cbn [factors mitigations severity_score occurrence_score detection_score
         risk_score risk_level].
    split.
    { repeat (apply Forall_app; split); try apply Forall_nil;
        apply RiskFactor_score_bounds; cbn; split; discriminate. }
    split.
    { repeat (apply paired_step;
              [|cbn [name]; unfold mitigation_table;
                repeat (first [left; reflexivity | right])]).
      apply paired_nil. }
    repeat split.
Qed.

Lemma band_cases (rpn : Q) :
  (band rpn = LOW <-> rpn <= 100) /\
  (band rpn = MEDIUM <-> 100 < rpn /\ rpn <= 200) /\
  (band rpn = HIGH <-> 200 < rpn /\ rpn <= 400) /\
  (band rpn = CRITICAL <-> 400 < rpn).
Proof.
  unfold band, RPN_LOW, RPN_MEDIUM, RPN_HIGH.
  destruct (Qle_bool rpn 100) eqn:E1;
    [apply Qle_bool_iff in E1 | apply not_true_iff_false in E1;
                                rewrite Qle_bool_iff in E1; apply Qnot_le_lt in E1].
  { repeat split; intros; try discriminate; try assumption; lra. }
  destruct (Qle_bool rpn 200) eqn:E2;
    [apply Qle_bool_iff in E2 | apply not_true_iff_false in E2;
                                rewrite Qle_bool_iff in E2; apply Qnot_le_lt in E2].
  { repeat split; intros; try discriminate; try assumption; lra. }
  destruct (Qle_bool rpn 400) eqn:E3;
    [apply Qle_bool_iff in E3 | apply not_true_iff_false in E3;
                                rewrite Qle_bool_iff in E3; apply Qnot_le_lt in E3].
  { repeat split; intros; try discriminate; try assumption; lra. }
  repeat split; intros; try discriminate; try assumption; lra.
Qed.

Lemma product_bounds (s o d : Q) :
  1 <= s <= 9 -> 1 <= o <= 10 -> 4 <= d <= 6 ->
  4 <= s * o * d <= 540.
Proof.
  intros Hs Ho Hd.
  assert (H1 : 1 <= s * o).
  { apply Qle_trans with (s * 1); [lra|]. apply Qmult_le_l; lra. }
  assert (H2 : s * o <= 90).
  { apply Qle_trans with (9 * o).
    - apply Qmult_le_compat_r; lra.
    - apply Qle_trans with (9 * 10); [apply Qmult_le_l; lra|discriminate]. }
  split.
  - apply Qle_trans with (s * o * 4); [lra|]. apply Qmult_le_l; lra.
  - apply Qle_trans with (s * o * 6); [apply Qmult_le_l; lra|lra].
Qed.

(** X1. On every accepted request [assess] returns (the bounds the
    [RiskAssessment] schema puts on the scores never refuse its result):
    severity is the mean factor score, or 1.0 without factors, and lies in
    [1, 9]; occurrence is min(10, 2 * factors + 1); detection is 4 when the
    models agree and 6 otherwise; the risk score is their product and lies
    in [4, 540]. *)
Theorem assess_scores_in_range (settings : config.Settings) (now_ms : Z)
  (request : SignalRequest) (direction : SignalDirection) (confidence : Q)
  (shadow_agreed : bool) (self : RiskAssessor)
  (Hvalid : SignalRequest_valid request = true) :
  exists ra,
    fst (assess settings now_ms request direction confidence shadow_agreed self)
    = Ok ra /\
    severity_score ra =
      match factors ra with
      | [] => 1.0
      | _ => py.sum (map score (factors ra))
             / inject_Z (Z.of_nat (List.length (factors ra)))
      end /\
    1 <= severity_score ra <= 9 /\
    occurrence_score ra =
      inject_Z (Z.min 10 (Z.of_nat (List.length (factors ra)) * 2 + 1)) /\
    detection_score ra = (if shadow_agreed then 4.0 else 6.0) /\
    risk_score ra = severity_score ra * occurrence_score ra * detection_score ra /\
    4 <= risk_score ra <= 540.
Proof.
  destruct (assess_scores settings now_ms request direction confidence
              shadow_agreed self Hvalid)
    as [ra [Ha [Hfs [_ [Hs [Ho [Hd [Hr _]]]]]]]].
  exists ra. rewrite Ha. split; [reflexivity|].
  assert (Hsb : 1 <= severity_score ra <= 9)
    by (rewrite Hs; apply severity_bounds, Hfs).
  repeat (split; [assumption|]).
  rewrite Hr. apply product_bounds.
  - exact Hsb.
  - rewrite Ho. apply occurrence_bounds.
  - rewrite Hd. destruct shadow_agreed; split; discriminate.
Qed.

(** [assess_scores_in_range] on a stale, disputed NEUTRAL signal over
    [steady]. *)
Lemma assess_scores_in_range_witness :
  exists ra,
    fst (assess config.settings 20000 (request_of steady 1000) NEUTRAL 0.5
           false __init__) = Ok ra /\
    severity_score ra =
      match factors ra with
      | [] => 1.0
      | _ => py.sum (map score (factors ra))
             / inject_Z (Z.of_nat (List.length (factors ra)))
      end /\
    1 <= severity_score ra <= 9 /\
    occurrence_score ra =
      inject_Z (Z.min 10 (Z.of_nat (List.length (factors ra)) * 2 + 1)) /\
    detection_score ra = (if false then 4.0 else 6.0) /\
    risk_score ra = severity_score ra * occurrence_score ra * detection_score ra /\
    4 <= risk_score ra <= 540.
Proof.
  apply (assess_scores_in_range config.settings 20000 (request_of steady 1000)
           NEUTRAL 0.5 false __init__).
  vm_compute. reflexivity.
Defined.

(** X2. The risk level of a returned assessment is the band of its risk
    score, each band closed above: LOW up to 100, MEDIUM above 100 up to
    200, HIGH above 200 up to 400, CRITICAL above 400. *)
Theorem risk_level_bands (settings : config.Settings) (now_ms : Z)
  (request : SignalRequest) (direction : SignalDirection) (confidence : Q)
  (shadow_agreed : bool) (self : RiskAssessor)
  (Hvalid : SignalRequest_valid request = true) :
  exists ra,
    fst (assess settings now_ms request direction confidence shadow_agreed self)
    = Ok ra /\
    (risk_level ra = LOW <-> risk_score ra <= 100) /\
    (risk_level ra = MEDIUM <-> 100 < risk_score ra /\ risk_score ra <= 200) /\
    (risk_level ra = HIGH <-> 200 < risk_score ra /\ risk_score ra <= 400) /\
    (risk_level ra = CRITICAL <-> 400 < risk_score ra).
Proof.
  destruct (assess_scores settings now_ms request direction confidence
              shadow_agreed self Hvalid)
    as [ra [Ha [_ [_ [_ [_ [_ [_ Hl]]]]]]]].
  exists ra. rewrite Ha, Hl. split; [reflexivity|]. apply band_cases.
Qed.

(** [risk_level_bands] on a stale, disputed NEUTRAL signal over [steady]
    (risk score 324, HIGH). *)
Lemma risk_level_bands_witness :
  exists ra,
    fst (assess config.settings 20000 (request_of steady 1000) NEUTRAL 0.5
           false __init__) = Ok ra /\
    (risk_level ra = LOW <-> risk_score ra <= 100) /\
    (risk_level ra = MEDIUM <-> 100 < risk_score ra /\ risk_score ra <= 200) /\
    (risk_level ra = HIGH <-> 200 < risk_score ra /\ risk_score ra <= 400) /\
    (risk_level ra = CRITICAL <-> 400 < risk_score ra).
Proof.
  apply (risk_level_bands config.settings 20000 (request_of steady 1000)
           NEUTRAL 0.5 false __init__).
  vm_compute. reflexivity.
Defined.

(** X3. When the shadow model agrees, the risk score is at most 360 and the
    risk level is never CRITICAL, whatever else fires. *)
Theorem agreement_excludes_critical (settings : config.Settings) (now_ms : Z)
  (request : SignalRequest) (direction : SignalDirection) (confidence : Q)
  (self : RiskAssessor)
  (Hvalid : SignalRequest_valid request = true) :
  exists ra,
    fst (assess settings now_ms request direction confidence true self) = Ok ra /\
    risk_score ra <= 360 /\
    risk_level ra <> CRITICAL.
Proof.
  destruct (assess_scores settings now_ms request direction confidence
              true self Hvalid)
    as [ra [Ha [Hfs [_ [Hs [Ho [Hd [Hr Hl]]]]]]]].
  exists ra. rewrite Ha. split; [reflexivity|].
  assert (Hsb : 1 <= severity_score ra <= 9)
    by (rewrite Hs; apply severity_bounds, Hfs).
  assert (Hob : 1 <= occurrence_score ra <= 10)
    by (rewrite Ho; apply occurrence_bounds).
  assert (Hle : risk_score ra <= 360).
  { rewrite Hr, Hd.
    assert (H2 : severity_score ra * occurrence_score ra <= 90).
    { apply Qle_trans with (9 * occurrence_score ra).
      - apply Qmult_le_compat_r; lra.
      - apply Qle_trans with (9 * 10); [apply Qmult_le_l; lra|discriminate]. }
    lra. }
  split; [exact Hle|].
  rewrite Hl. intro H. apply band_cases in H. lra.
Qed.

(** [agreement_excludes_critical] with every other check firing: a stale,
    low-confidence NEUTRAL signal on a drifting assessor. *)
Lemma agreement_excludes_critical_witness :
  exists ra,
    fst (assess config.settings 20000 (request_of steady 1000) NEUTRAL 0.5 true
           drifting) = Ok ra /\
    risk_score ra <= 360 /\
    risk_level ra <> CRITICAL.
Proof.
  apply (agreement_excludes_critical config.settings 20000
           (request_of steady 1000) NEUTRAL 0.5 drifting).
  vm_compute. reflexivity.
Defined.

(** X4. [assess] returns one mitigation per factor: the two lists have the
    same length, and the mitigation at each index is the one the code
    appends together with the factor at that index. *)
Theorem mitigations_follow_factors (settings : config.Settings) (now_ms : Z)
  (request : SignalRequest) (direction : SignalDirection) (confidence : Q)
  (shadow_agreed : bool) (self : RiskAssessor)
  (Hvalid : SignalRequest_valid request = true) :
  exists ra,
    fst (assess settings now_ms request direction confidence shadow_agreed self)
    = Ok ra /\
    List.length (mitigations ra) = List.length (factors ra) /\
    forall i f m,
      nth_error (factors ra) i = Some f -> nth_error (mitigations ra) i = Some m ->
      In (name f, m) mitigation_table.
Proof.
  destruct (assess_scores settings now_ms request direction confidence
              shadow_agreed self Hvalid)
    as [ra [Ha [_ [[Hlen Hall] _]]]].
  exists ra. rewrite Ha. split; [reflexivity|]. split; [exact Hlen|].
  intros i f m Hf Hm. rewrite Forall_forall in Hall. apply Hall.
  apply (nth_error_In _ i).
  revert Hf Hm. generalize (factors ra) (mitigations ra). clear.
  induction i as [|i IH]; intros [|f' fs] [|m' ms]; cbn; try discriminate.
  - now intros [= ->] [= ->].
  - apply IH.
Qed.

(** [mitigations_follow_factors] on a stale, disputed NEUTRAL signal over
    [steady]. *)
Lemma mitigations_follow_factors_witness :
  exists ra,
    fst (assess config.settings 20000 (request_of steady 1000) NEUTRAL 0.5
           false __init__) = Ok ra /\
    List.length (mitigations ra) = List.length (factors ra) /\
    forall i f m,
      nth_error (factors ra) i = Some f -> nth_error (mitigations ra) i = Some m ->
      In (name f, m) mitigation_table.
Proof.
  apply (mitigations_follow_factors config.settings 20000
           (request_of steady 1000) NEUTRAL 0.5 false __init__).
  vm_compute. reflexivity.
Defined.

(** X5. When none of the eight checks fires, the assessment has no factor
    and no mitigation, severity 1.0, occurrence 1, detection 4.0, risk
    score 4 and risk level LOW, and none of its flags reports a problem. *)
Theorem quiet_signal_is_low (settings : config.Settings) (now_ms : Z)
  (request : SignalRequest) (direction : SignalDirection) (confidence : Q)
  (shadow_agreed : bool) (self : RiskAssessor) (m v : Q) (c : OHLCVData)
  (Hvalid : SignalRequest_valid request = true)
  (Hm : max_change (map close (candles request)) = Ok m)
  (Hv : volatility_pct (candles request) = Ok v)
  (Hc : py.last (candles request) = Ok c)
  (Hquiet : forall chk,
      In chk (checks settings now_ms request direction confidence
                shadow_agreed self m v c) -> fst chk = false) :
  exists ra,
    fst (assess settings now_ms request direction confidence shadow_agreed self)
    = Ok ra /\
    factors ra = [] /\ mitigations ra = [] /\
    severity_score ra = 1.0 /\ occurrence_score ra = 1 /\
    detection_score ra = 4.0 /\
    risk_score ra == 4 /\ risk_level ra = LOW /\
    is_stale_data ra = false /\ is_drift_detected ra = false /\
    is_shadow_model_agreed ra = true.
Proof.
  destruct (assess_valid settings now_ms request direction confidence
              shadow_agreed self Hvalid)
    as [m' [v' [c' [ra [Hm' [Hv' [Hc' [Ha [Hf [Hst [Hdr Hag]]]]]]]]]]].
  rewrite Hm in Hm'. rewrite Hv in Hv'. rewrite Hc in Hc'.
  injection Hm' as <-. injection Hv' as <-. injection Hc' as <-.
  destruct (assess_scores settings now_ms request direction confidence
              shadow_agreed self Hvalid)
    as [ra' [Ha' [_ [[Hlen _] [Hs [Ho [Hd [Hr Hl]]]]]]]].
  rewrite Ha in Ha'. injection Ha' as <-.
  assert (Hnil : factors ra = []).
  { apply (map_eq_nil summary). rewrite Hf. now apply fired_nil. }
  assert (Hagreed : shadow_agreed = true).
  { specialize (Hquiet (negb shadow_agreed, ("Model Disagreement", "model", 7.0))).
    cbn [fst] in Hquiet. apply negb_false_iff, Hquiet.
    unfold checks. do 3 right. now left. }
  exists ra. rewrite Ha. split; [reflexivity|]. split; [exact Hnil|].
  rewrite Hnil in *. cbn [List.length] in *.
  split; [now apply length_zero_iff_nil|].
  rewrite Hagreed in *.
  assert (Hscore : risk_score ra == 4) by (rewrite Hr, Hs, Ho, Hd; reflexivity).
  repeat split; try assumption.
  - rewrite Hl. apply band_cases. rewrite Hscore. discriminate.
  - rewrite Hst.
    apply (Hquiet (_, ("Stale Data", "data", 8.0))). unfold checks. now left.
  - rewrite Hdr.
    apply (Hquiet (_, ("Model Drift Detected", "model", 9.0))).
    unfold checks. do 4 right. now left.
Qed.

(** [quiet_signal_is_low] on a fresh, confident, agreed LONG signal over
    [steady]. *)
Lemma quiet_signal_is_low_witness :
  exists ra,
    fst (assess config.settings 2000 (request_of steady 1000) LONG 0.9 true
           __init__) = Ok ra /\
    factors ra = [] /\ mitigations ra = [] /\
    severity_score ra = 1.0 /\ occurrence_score ra = 1 /\
    detection_score ra = 4.0 /\
    risk_score ra == 4 /\ risk_level ra = LOW /\
    is_stale_data ra = false /\ is_drift_detected ra = false /\
    is_shadow_model_agreed ra = true.
Proof.
  eapply (quiet_signal_is_low config.settings 2000 (request_of steady 1000) LONG
            0.9 true __init__).
  - vm_compute. reflexivity.
  - vm_compute. reflexivity.
  - vm_compute. reflexivity.
  - vm_compute. reflexivity.
  - intros chk H. vm_compute in H.
    repeat (destruct H as [<- | H]; [reflexivity|]). destruct H.
Defined.

(** ** The triggers of the factors *)

Lemma name_reported (ra : RiskAssessment)
  (cs : list (bool * (string * string * Q))) (n cat : string) (sev : Q) :
  map summary (factors ra) = fired cs ->
  (forall b cat' sev', In (b, (n, cat', sev')) cs -> cat' = cat /\ sev' = sev) ->
  In n (map name (factors ra)) <-> In (true, (n, cat, sev)) cs.
Proof.
  intros Hf Huniq. rewrite <- (factor_reported ra cs _ Hf), in_map_iff. split.
  - intros [f [Hn Hin]]. exists f. split; [exact Hin|].
    assert (Hs : In (true, summary f) cs).
    { apply (factor_reported ra cs _ Hf). now exists f. }
    unfold summary in *. rewrite Hn in *.
    now destruct (Huniq _ _ _ Hs) as [-> ->].
  - intros [f [Hin Hs]]. exists f. split; [|exact Hin].
    unfold summary in Hs. now injection Hs.
Qed.

(** Every check carries its own name. *)
Lemma check_of_name (settings : config.Settings) (now_ms : Z)
  (request : SignalRequest) (direction : SignalDirection) (confidence : Q)
  (shadow_agreed : bool) (self : RiskAssessor) (m v : Q) (c : OHLCVData)
  (b : bool) (n cat : string) (sev : Q) :
  In (b, (n, cat, sev))
     (checks settings now_ms request direction confidence shadow_agreed self m v c) ->
  In (n, cat, sev)
     [("Stale Data", "data", 8.0); ("Anomalous Price Movement", "data", 7.0);
      ("Low Model Confidence", "model", 6.0); ("Model Disagreement", "model", 7.0);
      ("Model Drift Detected", "model", 9.0); ("High Volatility", "market", 5.0);
      ("Low Liquidity", "market", 4.0); ("Neutral Signal", "execution", 3.0)].
Proof.
  unfold checks. intro H.
  repeat (destruct H as [H | H];
          [injection H as _ <- <- <-; cbn; tauto|]).
  destruct H.
Qed.

Ltac unique_check :=
  let H := fresh in
  intros ? ? ? H; apply check_of_name in H; cbn in H;
  repeat (destruct H as [H | H];
          [try discriminate H; injection H as <- <-; now split|]);
  destruct H.

Lemma fold_Qmax_lt (t : Q) (xs : list Q) :
  forall x, t < fold_left Qmax xs x <-> t < x \/ Exists (fun y => t < y) xs.
Proof.
  induction xs as [|y xs IH]; intro x; cbn [fold_left].
  - split; [now left|]. intros [H | H]; [exact H|inversion H].
  - rewrite IH, Q.max_lt_iff, Exists_cons. tauto.
Qed.

Lemma pairwise_moves (prices : list Q) :
  Forall (fun p => 0 < p) prices ->
  py.pairwise (fun prev cur => py.div (Qabs (cur - prev)) prev) prices
  = Ok (relative_moves prices).
Proof.
  induction 1 as [|x l Hx Hl IH]; [reflexivity|].
  destruct l as [|y l]; [reflexivity|].
  cbn [py.pairwise relative_moves]. rewrite div_Ok by lra. cbn [py.bind].
  cbn [py.pairwise] in IH. rewrite IH. reflexivity.
Qed.

Lemma max_change_exceeds (prices : list Q) (m t : Q) :
  Forall (fun p => 0 < p) prices -> 0 <= t ->
  max_change prices = Ok m ->
  t < m <-> Exists (fun mv => t < mv) (relative_moves prices).
Proof.
  intros Hpos Ht. unfold max_change. rewrite (pairwise_moves _ Hpos).
  cbn [py.bind]. destruct (relative_moves prices) as [|x xs].
  - intro H. injection H as <-. split; [lra|intro H; inversion H].
  - cbn [py.max]. intro H. injection H as <-.
    rewrite fold_Qmax_lt, Exists_cons. tauto.
Qed.

(** X6. On every accepted request, the factors Stale Data, Low Model
    Confidence, Model Disagreement, Low Liquidity and Neutral Signal are
    each reported exactly when their trigger holds: data older than the
    maximum age, confidence below the threshold, the models disagreeing,
    the last volume below half the mean volume of the last 14 candles, and
    a NEUTRAL direction; the stale-data flag follows the same test. *)
Theorem factor_triggers (settings : config.Settings) (now_ms : Z)
  (request : SignalRequest) (direction : SignalDirection) (confidence : Q)
  (shadow_agreed : bool) (self : RiskAssessor)
  (Hvalid : SignalRequest_valid request = true) :
  exists last_candle ra,
    py.last (candles request) = Ok last_candle /\
    fst (assess settings now_ms request direction confidence shadow_agreed self)
    = Ok ra /\
    (In "Stale Data" (map name (factors ra)) <->
     (now_ms - request_timestamp request
      > config.risk_max_data_age_seconds settings * 1000)%Z) /\
    (is_stale_data ra = true <->
     (now_ms - request_timestamp request
      > config.risk_max_data_age_seconds settings * 1000)%Z) /\
    (In "Low Model Confidence" (map name (factors ra)) <->
     confidence < config.ml_confidence_threshold settings) /\
    (In "Model Disagreement" (map name (factors ra)) <-> shadow_agreed = false) /\
    (is_shadow_model_agreed ra = shadow_agreed) /\
    (In "Low Liquidity" (map name (factors ra)) <->
     volume last_candle < avg_volume (candles request) * 0.5) /\
    (In "Neutral Signal" (map name (factors ra)) <-> direction = NEUTRAL).
Proof.
  destruct (assess_valid settings now_ms request direction confidence
              shadow_agreed self Hvalid)
    as [m [v [c [ra [_ [_ [Hc [Ha [Hf [Hst [_ Hag]]]]]]]]]]].
  exists c, ra. rewrite Ha. split; [exact Hc|]. split; [reflexivity|].
  assert (Hstale : forall b : bool,
             In (true, ("Stale Data", "data", 8.0))
                (checks settings now_ms request direction confidence
                   shadow_agreed self m v c) <->
             (now_ms - request_timestamp request >? STALE_DATA_MAX_AGE_MS settings)%Z
             = true).
  { intros _. unfold checks. split.
    - intro H. repeat (destruct H as [H | H]; [try discriminate H|]);
        [now injection H|destruct H].
    - intros ->. now left. }
  split; [|split; [|split; [|split; [|split; [|split]]]]].
  - rewrite (name_reported ra _ _ "data" 8.0 Hf) by unique_check.
    rewrite (Hstale true). unfold STALE_DATA_MAX_AGE_MS.
    rewrite Z.gtb_gt. reflexivity.
  - rewrite Hst. unfold STALE_DATA_MAX_AGE_MS. rewrite Z.gtb_gt. reflexivity.
  - rewrite (name_reported ra _ _ "model" 6.0 Hf) by unique_check.
    rewrite <- Qltb_lt. unfold checks, MIN_CONFIDENCE. split.
    + intro H. repeat (destruct H as [H | H]; [try discriminate H|]);
        [now injection H|destruct H].
    + intros ->. do 2 right. now left.
  - rewrite (name_reported ra _ _ "model" 7.0 Hf) by unique_check.
    rewrite <- negb_true_iff. unfold checks. split.
    + intro H. repeat (destruct H as [H | H]; [try discriminate H|]);
        [now injection H|destruct H].
    + intros ->. do 3 right. now left.
  - exact Hag.
  - rewrite (name_reported ra _ _ "market" 4.0 Hf) by unique_check.
    rewrite <- Qltb_lt. unfold checks. split.
    + intro H. repeat (destruct H as [H | H]; [try discriminate H|]);
        [now injection H|destruct H].
    + intros ->. do 6 right. now left.
  - rewrite (name_reported ra _ _ "execution" 3.0 Hf) by unique_check.
    unfold checks. split.
    + intro H. repeat (destruct H as [H | H]; [try discriminate H|]);
        [|destruct H].
      injection H as H. now destruct direction.
    + intros ->. do 7 right. now left.
Qed.

(** [factor_triggers] on a stale, low-confidence, disputed NEUTRAL signal
    over [steady]. *)
Lemma factor_triggers_witness :
  exists last_candle ra,
    py.last (candles (request_of steady 1000)) = Ok last_candle /\
    fst (assess config.settings 20000 (request_of steady 1000) NEUTRAL 0.5 false
           __init__) = Ok ra /\
    (In "Stale Data" (map name (factors ra)) <->
     (20000 - request_timestamp (request_of steady 1000)
      > config.risk_max_data_age_seconds config.settings * 1000)%Z) /\
    (is_stale_data ra = true <->
     (20000 - request_timestamp (request_of steady 1000)
      > config.risk_max_data_age_seconds config.settings * 1000)%Z) /\
    (In "Low Model Confidence" (map name (factors ra)) <->
     0.5 < config.ml_confidence_threshold config.settings) /\
    (In "Model Disagreement" (map name (factors ra)) <-> false = false) /\
    (is_shadow_model_agreed ra = false) /\
    (In "Low Liquidity" (map name (factors ra)) <->
     volume last_candle < avg_volume (candles (request_of steady 1000)) * 0.5) /\
    (In "Neutral Signal" (map name (factors ra)) <-> NEUTRAL = NEUTRAL).
Proof.
  apply (factor_triggers config.settings 20000 (request_of steady 1000) NEUTRAL
           0.5 false __init__).
  vm_compute. reflexivity.
Defined.

(** X7. On every accepted request, Anomalous Price Movement is reported
    exactly when some candle's close differs from the previous close by
    more than 10% of that previous close. *)
Theorem anomalous_move_iff (settings : config.Settings) (now_ms : Z)
  (request : SignalRequest) (direction : SignalDirection) (confidence : Q)
  (shadow_agreed : bool) (self : RiskAssessor)
  (Hvalid : SignalRequest_valid request = true) :
  exists ra,
    fst (assess settings now_ms request direction confidence shadow_agreed self)
    = Ok ra /\
    (In "Anomalous Price Movement" (map name (factors ra)) <->
     Exists (fun move => 0.1 < move)
            (relative_moves (map close (candles request)))).
Proof.
  destruct (assess_valid settings now_ms request direction confidence
              shadow_agreed self Hvalid)
    as [m [v [c [ra [Hm [_ [_ [Ha [Hf _]]]]]]]]].
  exists ra. rewrite Ha. split; [reflexivity|].
  rewrite (name_reported ra _ _ "data" 7.0 Hf) by unique_check.
  assert (Hpos : Forall (fun p => 0 < p) (map close (candles request))).
  { destruct (SignalRequest_valid_inv _ Hvalid) as [_ Hall].
    rewrite Forall_forall in *. intros p Hp.
    apply in_map_iff in Hp as [x [<- Hx]]. now apply Hall. }
  rewrite <- (max_change_exceeds _ m 0.1 Hpos) by (discriminate || exact Hm).
  rewrite <- Qltb_lt. unfold checks. split.
  - intro H. repeat (destruct H as [H | H]; [try discriminate H|]);
      [now injection H|destruct H].
  - intros ->. right. now left.
Qed.

(** [anomalous_move_iff] on 50 candles at 100 with one close at 120 in the
    middle. *)
Lemma anomalous_move_iff_witness :
  exists ra,
    fst (assess config.settings 2000
           (request_of (firstn 25 flat ++ candle 1 100 120 100 120 10
                          :: skipn 26 flat) 1000)
           LONG 0.9 true __init__) = Ok ra /\
    (In "Anomalous Price Movement" (map name (factors ra)) <->
     Exists (fun move => 0.1 < move)
            (relative_moves
               (map close
                  (candles (request_of (firstn 25 flat
                                        ++ candle 1 100 120 100 120 10
                                        :: skipn 26 flat) 1000))))).
Proof.
  apply (anomalous_move_iff config.settings 2000
           (request_of (firstn 25 flat ++ candle 1 100 120 100 120 10
                          :: skipn 26 flat) 1000)
           LONG 0.9 true __init__).
  vm_compute. reflexivity.
Defined.

(** ** Levels *)

Lemma true_range_nonneg (h l prev_close : Q) : 0 <= true_range h l prev_close.
Proof.
  unfold true_range.
  apply Qle_trans with (Qmax (Qabs (h - prev_close)) (Qabs (l - prev_close)));
    [|apply Q.le_max_r].
  apply Qle_trans with (Qabs (h - prev_close)); [apply Qabs_nonneg|apply Q.le_max_l].
Qed.

Lemma roll1_length {A : Type} (a : list A) :
  List.length (np.roll1 a) = List.length a.
Proof.
  unfold np.roll1. rewrite <- (length_rev a).
  destruct (rev a) as [|x front]; [reflexivity|].
  cbn [List.length]. now rewrite length_rev.
Qed.

Lemma true_ranges_length (cs : list OHLCVData) :
  List.length (true_ranges cs) = (Nat.min 14 (List.length cs) - 1)%nat.
Proof.
  unfold true_ranges.
  assert (H : forall (A : Type) (l : list A),
             List.length (tl l) = (List.length l - 1)%nat)
    by (intros A [|x l]; cbn; lia).
  rewrite H, length_map, !length_combine, roll1_length, !length_map,
    last_n_length.
  lia.
Qed.

Lemma true_ranges_nonneg (cs : list OHLCVData) :
  Forall (fun tr => 0 <= tr) (true_ranges cs).
Proof.
  unfold true_ranges. apply Forall_forall. intros tr Htr.
  assert (Hin : In tr (map (fun hlc => true_range (fst (fst hlc)) (snd (fst hlc))
                                         (snd hlc))
                         (combine (combine (map high (last_n 14 cs))
                                           (map low (last_n 14 cs)))
                                  (np.roll1 (map close (last_n 14 cs)))))).
  { destruct (map _ (combine _ _)) as [|x l]; [destruct Htr|now right]. }
  apply in_map_iff in Hin as [hlc [<- _]]. apply true_range_nonneg.
Qed.

Lemma sum_nonneg_list (l : list Q) : Forall (fun x => 0 <= x) l -> 0 <= py.sum l.
Proof.
  induction 1 as [|x l Hx Hl IH]; [apply Qle_refl|].
  rewrite sum_cons. lra.
Qed.

(** X8. The ATR of [_calculate_levels] is a number, and not negative, as
    soon as the window holds two candles; on a shorter window it is nan. *)
Theorem atr_defined_from_two_candles (candles : list OHLCVData) :
  ((2 <= List.length candles)%nat ->
   exists atr, average_true_range candles = np.Fin atr /\ 0 <= atr) /\
  ((List.length candles < 2)%nat -> average_true_range candles = np.NaN).
Proof.
  pose proof (true_ranges_length candles) as Hlen.
  pose proof (true_ranges_nonneg candles) as Hnn.
  unfold average_true_range, np.mean. split; intro H.
  - destruct (true_ranges candles) as [|x l] eqn:E; [cbn [List.length] in Hlen; lia|].
    eexists. split; [reflexivity|].
    apply Qle_shift_div_l.
    + apply inject_length_pos. discriminate.
    + rewrite Qmult_0_l. now apply sum_nonneg_list.
  - destruct (true_ranges candles) as [|x l]; [reflexivity|]. cbn [List.length] in Hlen. lia.
Qed.

(** X9. With a single candle the LONG and SHORT levels carry nan for the
    stop and for the three targets, the entry is the close, and the
    risk/reward ratio falls back to 1.0; nothing is raised. *)
Theorem single_candle_levels_are_nan (direction : SignalDirection)
  (c : OHLCVData) (Hdirection : direction <> NEUTRAL) :
  _calculate_levels direction [c] =
  Ok (np.Fin (close c), np.NaN, [np.NaN; np.NaN; np.NaN], np.Fin 1.0).
Proof. destruct direction; [reflexivity|reflexivity|congruence]. Qed.

(** [single_candle_levels_are_nan] for a SHORT signal. *)
Lemma single_candle_levels_are_nan_witness :
  _calculate_levels SHORT [candle 0 100 101 99 100 10] =
  Ok (np.Fin (close (candle 0 100 101 99 100 10)), np.NaN,
      [np.NaN; np.NaN; np.NaN], np.Fin 1.0).
Proof. apply single_candle_levels_are_nan. discriminate. Defined.

(** X10. With a positive ATR the LONG levels are entry = close, stop 1.5 ATR
    below, targets 1, 2 and 3 ATR above, and the SHORT levels mirror them;
    in both directions the risk/reward ratio is 2/3, whatever the price
    and the ATR. *)
Theorem directional_levels (candles : list OHLCVData) (last_candle : OHLCVData)
  (atr : Q)
  (Hlast : py.last candles = Ok last_candle)
  (Hatr : average_true_range candles = np.Fin atr)
  (Hpos : 0 < atr) :
  let p := close last_candle in
  (exists rr,
     _calculate_levels LONG candles =
     Ok (np.Fin p, np.Fin (p - atr * 1.5),
         [np.Fin (p + atr * 1.0); np.Fin (p + atr * 2.0); np.Fin (p + atr * 3.0)],
         np.Fin rr) /\ rr == 2 # 3) /\
  (exists rr,
     _calculate_levels SHORT candles =
     Ok (np.Fin p, np.Fin (p + atr * 1.5),
         [np.Fin (p - atr * 1.0); np.Fin (p - atr * 2.0); np.Fin (p - atr * 3.0)],
         np.Fin rr) /\ rr == 2 # 3).
Proof.
  intro p. subst p. unfold _calculate_levels. rewrite Hlast, Hatr.
  cbn [py.bind]. generalize (close last_candle). intro p.
  cbn [py.bind np.sub np.add np.mul np.lift2 np.abs py.index nth_error np.gt].
  assert (HriskL : p - (p - atr * 1.5) == atr * 1.5) by ring.
  assert (HriskS : p - (p + atr * 1.5) == - (atr * 1.5)) by ring.
  assert (HrewL : p + atr * 1.0 - p == atr) by ring.
  assert (HrewS : p - atr * 1.0 - p == - atr) by ring.
  assert (Hrisk : 0 < atr * 1.5) by lra.
  assert (HgtL : Qltb 0 (Qabs (p - (p - atr * 1.5))) = true).
  { apply Qltb_lt. rewrite HriskL. now apply Qabs_positive. }
  assert (HgtS : Qltb 0 (Qabs (p - (p + atr * 1.5))) = true).
  { apply Qltb_lt. rewrite HriskS, Qabs_opp. now apply Qabs_positive. }
  rewrite HgtL, HgtS. cbn [np.div np.lift2].
  split; eexists; (split; [reflexivity|]).
  - rewrite HriskL, HrewL, !Qabs_pos by lra. field. lra.
  - rewrite HriskS, HrewS, !Qabs_opp, !Qabs_pos by lra. field. lra.
Qed.

(** [directional_levels] on the window [steady] (close 100, ATR 2). *)
Lemma directional_levels_witness :
  (exists rr,
     _calculate_levels LONG steady =
     Ok (np.Fin 100, np.Fin (100 - (26 # 13) * 1.5),
         [np.Fin (100 + (26 # 13) * 1.0); np.Fin (100 + (26 # 13) * 2.0);
          np.Fin (100 + (26 # 13) * 3.0)],
         np.Fin rr) /\ rr == 2 # 3) /\
  (exists rr,
     _calculate_levels SHORT steady =
     Ok (np.Fin 100, np.Fin (100 + (26 # 13) * 1.5),
         [np.Fin (100 - (26 # 13) * 1.0); np.Fin (100 - (26 # 13) * 2.0);
          np.Fin (100 - (26 # 13) * 3.0)],
         np.Fin rr) /\ rr == 2 # 3).
Proof.
  apply (directional_levels steady (candle 2940000 100 101 99 100 10) (26 # 13)).
  - vm_compute. reflexivity.
  - vm_compute. reflexivity.
  - reflexivity.
Defined.

Lemma neutral_ratio (p : Q) :
  exists rr,
    (if Qltb 0 (Qabs (p - p * 0.98))
     then np.div (np.Fin (Qabs (p * 1.02 - p))) (np.Fin (Qabs (p - p * 0.98)))
     else np.Fin 1.0) = np.Fin rr /\
    rr == 1.
Proof.
  assert (Hsame : Qabs (p * 1.02 - p) == Qabs (p - p * 0.98)).
  { apply Qabs_wd. ring. }
  destruct (Qltb 0 (Qabs (p - p * 0.98))) eqn:E.
  - cbn [np.div np.lift2]. eexists. split; [reflexivity|].
    apply Qltb_lt in E. rewrite Hsame. field. lra.
  - eexists. split; reflexivity.
Qed.

(** X11. On every non-empty window the NEUTRAL levels are entry = close,
    stop 0.98 times the close and the single target 1.02 times the close,
    and the risk/reward ratio is 1. *)
Theorem neutral_levels (candles : list OHLCVData) (last_candle : OHLCVData)
  (Hlast : py.last candles = Ok last_candle) :
  exists rr,
    _calculate_levels NEUTRAL candles =
    Ok (np.Fin (close last_candle), np.Fin (close last_candle * 0.98),
        [np.Fin (close last_candle * 1.02)], np.Fin rr) /\
    rr == 1.
Proof.
  unfold _calculate_levels. rewrite Hlast.
  cbn [py.bind]. generalize (close last_candle). intro p.
  cbn [py.bind np.sub np.add np.mul np.lift2 np.abs py.index nth_error np.gt].
  destruct (neutral_ratio p) as [rr [Hrr Hone]].
  exists rr. rewrite Hrr. split; [reflexivity|exact Hone].
Qed.

(** [neutral_levels] on the window [steady]. *)
Lemma neutral_levels_witness :
  exists rr,
    _calculate_levels NEUTRAL steady =
    Ok (np.Fin (close (candle 2940000 100 101 99 100 10)),
        np.Fin (close (candle 2940000 100 101 99 100 10) * 0.98),
        [np.Fin (close (candle 2940000 100 101 99 100 10) * 1.02)], np.Fin rr) /\
    rr == 1.
Proof.
  apply (neutral_levels steady (candle 2940000 100 101 99 100 10)).
  vm_compute. reflexivity.
Defined.

(** ** Normalization keeps the order within a column *)








(** ** Agreement of the two models *)

Lemma predict_class (net : SignalPredictorNN) (features : ndarray)
  (probs : list Q) :
  net features = Ok probs -> List.length probs = 3%nat ->
  exists idx,
    np.argmax probs = Ok idx /\ (idx < 3)%nat /\
    (probs0 <- net features ;;
     pred_idx <- np.argmax probs0 ;;
     confidence <- py.index probs0 pred_idx ;;
     direction <- direction_map pred_idx ;;
     Ok (direction, confidence, probs0))
    = Ok (nth idx [LONG; SHORT; NEUTRAL] NEUTRAL, nth idx probs 0, probs).
Proof.
  intros Hp Hlen.
  assert (Hne : probs <> []) by (intro E; now rewrite E in Hlen).
  destruct (argmax_first_maximum probs Hne) as [idx [Hidx [Hlt _]]].
  rewrite Hlen in Hlt. exists idx. split; [exact Hidx|]. split; [exact Hlt|].
  rewrite Hp. cbn [py.bind]. rewrite Hidx. cbn [py.bind]. unfold py.index.
  destruct (nth_error probs idx) as [x|] eqn:Ex.
  - cbn [py.bind]. rewrite (nth_error_nth _ _ 0 Ex).
    destruct idx as [|[|[|idx]]]; [reflexivity ..|lia].
  - apply nth_error_None in Ex. lia.
Qed.

(** X13. With both models loaded and answering three probabilities each,
    [predict] takes direction and confidence from the primary model alone,
    and reports [shadow_agreed] exactly when the two models put their
    maximum on the same class index. *)
Theorem shadow_agreed_iff_same_class (self : SignalPredictor)
  (net shadow : SignalPredictorNN) (request : SignalRequest) (data : ndarray)
  (probs shadow_probs : list Q)
  (Hmodel : model self = Some net) (Hshadow : shadow_model self = Some shadow)
  (Hdata : _preprocess (candles request) = Ok data)
  (Hprobs : net data = Ok probs) (Hlen : List.length probs = 3%nat)
  (Hshadow_probs : shadow data = Ok shadow_probs)
  (Hshadow_len : List.length shadow_probs = 3%nat) :
  exists idx shadow_idx entry stop_loss take_profits rr_ratio shadow_agreed,
    np.argmax probs = Ok idx /\
    np.argmax shadow_probs = Ok shadow_idx /\
    predict self request =
    Ok (nth idx [LONG; SHORT; NEUTRAL] NEUTRAL, nth idx probs 0, entry,
        stop_loss, take_profits, rr_ratio, shadow_agreed) /\
    (shadow_agreed = true <-> idx = shadow_idx).
Proof.
  destruct (predict_class net data probs Hprobs Hlen) as [i [Hi [Hi3 Hpd]]].
  destruct (predict_class shadow data shadow_probs Hshadow_probs Hshadow_len)
    as [j [Hj [Hj3 Hps]]].
  assert (Hne : candles request <> []).
  { intro E. rewrite E in Hdata. discriminate. }
  destruct (calculate_levels_total (nth i [LONG; SHORT; NEUTRAL] NEUTRAL) _ Hne)
    as [entry [stop_loss [take_profits [rr_ratio Hlv]]]].
  exists i, j, entry, stop_loss, take_profits, rr_ratio,
    (SignalDirection_eqb (nth i [LONG; SHORT; NEUTRAL] NEUTRAL)
       (nth j [LONG; SHORT; NEUTRAL] NEUTRAL)).
  split; [exact Hi|]. split; [exact Hj|]. split.
  - unfold predict. rewrite Hdata. cbn [py.bind].
    unfold _predict_direction, _predict_shadow. rewrite Hmodel, Hshadow, Hpd.
    cbn [py.bind].
    rewrite Hshadow_probs in *. cbn [py.bind] in *. rewrite Hj in *.
    cbn [py.bind] in *.
    destruct (py.index shadow_probs j) as [x|]; [|discriminate].
    cbn [py.bind] in *.
    destruct (direction_map j) as [d|] eqn:Ed; [|discriminate].
    injection Hps as Hd _. subst d. cbn [py.bind]. rewrite Hlv. reflexivity.
  - destruct i as [|[|[|i]]]; destruct j as [|[|[|j]]]; cbn; split;
      intro H; try discriminate; try reflexivity; lia.
Qed.

(** [shadow_agreed_iff_same_class] on two models that both favour index 2,
    over the window [steady]. *)
Lemma shadow_agreed_iff_same_class_witness :
  exists idx shadow_idx entry stop_loss take_profits rr_ratio shadow_agreed,
    np.argmax [0.2; 0.1; 0.7] = Ok idx /\
    np.argmax [0.3; 0.3; 0.4] = Ok shadow_idx /\
    predict {| model := Some (fun _ => Ok [0.2; 0.1; 0.7]);
               shadow_model := Some (fun _ => Ok [0.3; 0.3; 0.4]);
               model_version := "v1.0.0-placeholder" |}
            (request_of steady 1000) =
    Ok (nth idx [LONG; SHORT; NEUTRAL] NEUTRAL, nth idx [0.2; 0.1; 0.7] 0, entry,
        stop_loss, take_profits, rr_ratio, shadow_agreed) /\
    (shadow_agreed = true <-> idx = shadow_idx).
Proof.
  eapply (shadow_agreed_iff_same_class
            {| model := Some (fun _ => Ok [0.2; 0.1; 0.7]);
               shadow_model := Some (fun _ => Ok [0.3; 0.3; 0.4]);
               model_version := "v1.0.0-placeholder" |}
            (fun _ => Ok [0.2; 0.1; 0.7]) (fun _ => Ok [0.3; 0.3; 0.4])
            (request_of steady 1000)).
  - reflexivity.
  - reflexivity.
  - vm_compute. reflexivity.
  - reflexivity.
  - reflexivity.
  - reflexivity.
  - reflexivity.
Defined.

(** ** Accepted requests *)

Lemma all_A_Z_0_9_word (w : string) : all_A_Z_0_9 w = true <-> code_word w.
Proof.
  unfold code_word. induction w as [|c w IH]; cbn [all_A_Z_0_9].
  - split; [discriminate|]. now intros [H _].
  - destruct w as [|c' w].
    + cbn. split.
      * intro H. split; [discriminate|]. intros x [<- | []]. exact H.
      * intros [_ H]. apply H. now left.
    + rewrite andb_true_iff, IH. cbn [list_ascii_of_string In]. split.
      * intros [Hc [_ Hw]]. split; [discriminate|].
        intros x [<- | Hx]; [exact Hc|]. now apply Hw.
      * intros [_ H]. split; [apply H; now left|].
        split; [discriminate|]. intros x Hx. apply H. now right.
Qed.

Lemma symbol_pattern_shape (s : string) :
  forall seen : bool,
    symbol_pattern seen s = true <->
    exists base quote,
      s = String.append base (String "/" quote) /\
      (seen = true \/ base <> EmptyString) /\
      (forall c, In c (list_ascii_of_string base) -> is_A_Z_0_9 c = true) /\
      code_word quote.
Proof.
  induction s as [|c s IH]; intro seen; cbn [symbol_pattern].
  - split; [discriminate|]. intros [[|b base] [quote [H _]]]; discriminate.
  - destruct (Ascii.eqb c "/") eqn:Ec.
    + apply Ascii.eqb_eq in Ec. subst c.
      rewrite andb_true_iff, all_A_Z_0_9_word. split.
      * intros [Hseen Hq]. exists EmptyString, s. cbn.
        repeat split; [now left|intros c []|apply Hq|apply Hq].
      * intros [[|b base] [quote [Heq [Hb [Hbase Hq]]]]].
        -- cbn in Heq. injection Heq as ->.
           split; [destruct Hb; congruence|exact Hq].
        -- cbn in Heq. injection Heq as <- _.
           specialize (Hbase "/"%char (or_introl eq_refl)). discriminate.
    + rewrite andb_true_iff, (IH true). split.
      * intros [Hc [base [quote [-> [_ [Hbase Hq]]]]]].
        exists (String c base), quote. cbn.
        repeat split; [right; discriminate| |apply Hq|apply Hq].
        intros x [<- | Hx]; [exact Hc|now apply Hbase].
      * intros [[|b base] [quote [Heq [Hb [Hbase Hq]]]]].
        -- cbn in Heq. injection Heq as -> _.
           rewrite Ascii.eqb_refl in Ec. discriminate.
        -- cbn in Heq. injection Heq as <- ->.
           split; [apply Hbase; now left|].
           exists base, quote. repeat split; [now left| |apply Hq|apply Hq].
           intros x Hx. apply Hbase. now right.
Qed.

Lemma symbol_pattern_has_slash (s : string) (seen : bool) :
  symbol_pattern seen s = true -> contains_slash s = true.
Proof.
  revert seen. induction s as [|c s IH]; intro seen; cbn; [discriminate|].
  destruct (Ascii.eqb c "/"); [reflexivity|].
  rewrite andb_true_iff. intros [_ H]. cbn. now apply (IH true).
Qed.

(** X14. [SignalRequest(...)] accepts its arguments exactly when the symbol
    is a non-empty word of [A-Z0-9], a slash, and another such word, and
    the window holds between 50 and 500 candles; it then stores them
    unchanged, and otherwise raises a validation error.  The [validate_symbol]
    validator never refuses a symbol the pattern accepted. *)
Theorem SignalRequest_accepts_iff (e : Exchange) (s : string) (t : Timeframe)
  (cs : list OHLCVData) (ts : Z) :
  let well_formed :=
    (exists base quote,
       s = String.append base (String "/" quote) /\
       code_word base /\ code_word quote) /\
    (50 <= List.length cs <= 500)%nat in
  (well_formed ->
   SignalRequest_new e s t cs ts =
   Ok {| exchange := e; symbol := s; timeframe := t; candles := cs;
         request_timestamp := ts |}) /\
  (~ well_formed -> SignalRequest_new e s t cs ts = Raise ValidationError) /\
  (symbol_pattern false s = true -> validate_symbol s = Ok s).
Proof.
  intro well_formed.
  assert (Hpat : symbol_pattern false s = true <->
                 exists base quote,
                   s = String.append base (String "/" quote) /\
                   code_word base /\ code_word quote).
  { rewrite symbol_pattern_shape. unfold code_word.
    split; intros [base [quote H]]; exists base, quote.
    - destruct H as [-> [[Hf | Hb] [Hbase Hq]]]; [discriminate|]. tauto.
    - tauto. }
  assert (Hval : symbol_pattern false s = true -> validate_symbol s = Ok s).
  { intro H. unfold validate_symbol.
    now rewrite (symbol_pattern_has_slash _ _ H). }
  unfold well_formed, SignalRequest_new. rewrite <- Hpat.
  split; [|split; [|exact Hval]].
  - intros [Hs [Hlo Hhi]]. rewrite Hs. cbn [py.bind]. rewrite (Hval Hs).
    cbn [py.bind].
    apply Nat.leb_le in Hlo, Hhi. rewrite Hlo, Hhi. reflexivity.
  - intro Hnot. destruct (symbol_pattern false s) eqn:Es; [|reflexivity].
    cbn [py.bind]. rewrite (Hval eq_refl). cbn [py.bind].
    destruct ((50 <=? List.length cs)%nat && (List.length cs <=? 500)%nat) eqn:El;
      [|reflexivity].
    exfalso. apply Hnot. split; [reflexivity|].
    apply andb_true_iff in El as [E1 E2]. apply Nat.leb_le in E1, E2. lia.
Qed.

(** ** Drift after recorded outcomes *)

Lemma last_n_last_n {A : Type} (k m : nat) (l : list A) :
  (k <= m)%nat -> last_n k (last_n m l) = last_n k l.
Proof.
  intro H. unfold last_n. rewrite length_skipn, skipn_skipn. f_equal. lia.
Qed.

Lemma last_n_map {A B : Type} (f : A -> B) (k : nat) (l : list A) :
  last_n k (map f l) = map f (last_n k l).
Proof. unfold last_n. now rewrite length_map, skipn_map. Qed.

Lemma sum_outcomes (calls : list (string * bool)) :
  py.sum (map (fun call => outcome_value (snd call)) calls) ==
  inject_Z (Z.of_nat (List.length calls)
            - Z.of_nat (List.length (filter (fun call => negb (snd call)) calls))).
Proof.
  induction calls as [|[id ok] calls IH]; [reflexivity|].
  cbn [map]. rewrite sum_cons, IH. cbn [snd filter List.length].
  destruct ok; cbn [negb outcome_value List.length].
  - setoid_replace 1.0 with (inject_Z 1) by reflexivity.
    rewrite <- inject_Z_plus. apply inject_Z_injective. lia.
  - setoid_replace 0.0 with (inject_Z 0) by reflexivity.
    rewrite <- inject_Z_plus. apply inject_Z_injective. lia.
Qed.

(** X15. After at least ten [record_outcome] calls on a fresh assessor,
    [_detect_drift] depends only on how many of the last ten outcomes were
    wrong: it answers true exactly when (10 - wrong) / 10 is below
    1 - drift_threshold, which with the default threshold 0.15 means at
    least two wrong outcomes among the last ten. *)
Theorem drift_counts_last_ten (settings : config.Settings)
  (calls : list (string * bool)) (Hcalls : (10 <= List.length calls)%nat) :
  exists flag,
    fst (_detect_drift settings (record_outcomes calls __init__)) = Ok flag /\
    (flag = true <->
     inject_Z (10 - Z.of_nat (wrong_among_last_ten calls)) / 10
     < 1 - config.risk_drift_threshold settings) /\
    (config.risk_drift_threshold settings == 0.15 ->
     flag = (2 <=? wrong_among_last_ten calls)%nat).
Proof.
  rewrite detect_drift_spec. cbn [fst]. eexists. split; [reflexivity|].
  assert (Hh : historical_accuracy (record_outcomes calls __init__) =
               last_n 100 (map (fun call => outcome_value (snd call)) calls))
    by apply (record_outcomes_history calls __init__ []), eq_refl.
  assert (Hten : List.length (last_n 10 calls) = 10%nat)
    by (rewrite last_n_length; lia).
  assert (Hsum : py.sum (last_n 10 (historical_accuracy
                                      (record_outcomes calls __init__))) ==
                 inject_Z (10 - Z.of_nat (wrong_among_last_ten calls))).
  { rewrite Hh, last_n_last_n, last_n_map, sum_outcomes by lia.
    unfold wrong_among_last_ten. now rewrite Hten. }
  assert (Hflag : drift_flag settings
                    (historical_accuracy (record_outcomes calls __init__)) = true <->
                  inject_Z (10 - Z.of_nat (wrong_among_last_ten calls)) / 10
                  < 1 - config.risk_drift_threshold settings).
  { rewrite drift_flag_iff, Hsum, Hh, last_n_length, length_map.
    unfold DRIFT_THRESHOLD. split; [tauto|]. intro H. split; [lia|exact H]. }
  split; [exact Hflag|].
  intro Hthr.
  assert (Hw : (wrong_among_last_ten calls <= 10)%nat).
  { unfold wrong_among_last_ten.
    pose proof (filter_length_le (fun call : string * bool => negb (snd call))
                  (last_n 10 calls)).
    lia. }
  apply eq_true_iff_eq. rewrite Hflag, Hthr, Nat.leb_le.
  destruct (wrong_among_last_ten calls) as [|[|w]].
  - split; [intro H; vm_compute in H; discriminate|lia].
  - split; [intro H; vm_compute in H; discriminate|lia].
  - split; [lia|intros _].
    apply Qlt_shift_div_r; [reflexivity|].
    apply Qle_lt_trans with (inject_Z 8); [|reflexivity].
    rewrite <- Zle_Qle. lia.
Qed.

(** [drift_counts_last_ten] after eight correct and two wrong outcomes. *)
Lemma drift_counts_last_ten_witness :
  exists flag,
    fst (_detect_drift config.settings
           (record_outcomes (repeat ("p", true) 8 ++ repeat ("p", false) 2)
              __init__)) = Ok flag /\
    (flag = true <->
     inject_Z (10 - Z.of_nat (wrong_among_last_ten
                                (repeat ("p", true) 8 ++ repeat ("p", false) 2)))
     / 10 < 1 - config.risk_drift_threshold config.settings) /\
    (config.risk_drift_threshold config.settings == 0.15 ->
     flag = (2 <=? wrong_among_last_ten
                     (repeat ("p", true) 8 ++ repeat ("p", false) 2))%nat).
Proof.
  apply (drift_counts_last_ten config.settings
           (repeat ("p", true) 8 ++ repeat ("p", false) 2)).
  cbn. lia.
Defined.

(** ** The endpoints of [main.py] *)

Lemma predict_neutral_values (self : SignalPredictor) (request : SignalRequest)
  (last_candle : OHLCVData) :
  model self = None -> shadow_model self = None ->
  py.last (candles request) = Ok last_candle ->
  exists rr,
    predict self request =
    Ok (NEUTRAL, 0.5, np.Fin (close last_candle),
        np.Fin (close last_candle * 0.98), [np.Fin (close last_candle * 1.02)],
        np.Fin rr, true) /\
    rr == 1.
Proof.
  intros Hmodel Hshadow Hlast.
  assert (Hne : candles request <> []).
  { intro E. rewrite E in Hlast. discriminate. }
  destruct (preprocess_total _ Hne) as [data Hdata].
  destruct (neutral_ratio (close last_candle)) as [rr [Hrr Hone]].
  exists rr. split; [|exact Hone].
  unfold predict. rewrite Hdata. cbn [py.bind].
  unfold _predict_direction, _predict_shadow. rewrite Hmodel, Hshadow.
  cbn [py.bind SignalDirection_eqb].
  unfold _calculate_levels. rewrite Hlast.
  cbn [py.bind np.sub np.add np.mul np.lift2 np.abs py.index nth_error np.gt].
  rewrite Hrr. reflexivity.
Qed.

Lemma Field_gt_float64_Ok (x : Q) :
  0 < x -> response.Field_gt_float64 0 (np.Fin x) = Ok (np.Fin x).
Proof.
  intro H. unfold response.Field_gt_float64. cbn [np.gt].
  apply Qltb_lt in H. now rewrite H.
Qed.

Lemma Field_gt_float64_refuses (v : np.float64) :
  np.gt v (np.Fin 0) = false ->
  response.Field_gt_float64 0 v = Raise ValidationError.
Proof. intro H. unfold response.Field_gt_float64. now rewrite H. Qed.

(** X16. With neither model loaded, [POST /predict] answers every accepted
    request with a successful response (never a 500): the prediction
    carries the id drawn, the request's exchange, symbol and timeframe,
    direction NEUTRAL, confidence 0.5, entry = last close, stop 0.98 and
    target 1.02 times the last close, and an assessment that reports the
    Neutral Signal factor with the models in agreement; the assessor is
    left unchanged. *)
Theorem predict_signal_without_models (settings : config.Settings)
  (predictor : SignalPredictor) (uuid4 : string) (assess_ms timestamp_ms : Z)
  (processing_time : Q) (request : SignalRequest) (risk_assessor : RiskAssessor)
  (Hmodel : model predictor = None) (Hshadow : shadow_model predictor = None)
  (Hvalid : SignalRequest_valid request = true) :
  exists last_candle prediction,
    py.last (candles request) = Ok last_candle /\
    predict_signal settings predictor uuid4 assess_ms timestamp_ms
      processing_time request risk_assessor =
    (Returns {| response.success := true;
                response.data := Some prediction;
                response.error := None;
                response.processing_time_ms := processing_time |},
     risk_assessor) /\
    response.id prediction = uuid4 /\
    response.exchange prediction = exchange request /\
    response.symbol prediction = symbol request /\
    response.timeframe prediction = timeframe request /\
    response.direction prediction = NEUTRAL /\
    response.confidence prediction = 0.5 /\
    response.entry_price prediction = np.Fin (close last_candle) /\
    response.stop_loss prediction = np.Fin (close last_candle * 0.98) /\
    response.take_profit prediction = [np.Fin (close last_candle * 1.02)] /\
    response.timestamp prediction = timestamp_ms /\
    In "Neutral Signal"
       (map name (factors (response.risk_assessment prediction))) /\
    is_shadow_model_agreed (response.risk_assessment prediction) = true.
Proof.
  destruct (assess_valid settings assess_ms request NEUTRAL 0.5 true
              risk_assessor Hvalid)
    as [m [v [c [ra [_ [_ [Hc [Ha [Hf [_ [_ Hag]]]]]]]]]]].
  destruct (predict_neutral_values predictor request c Hmodel Hshadow Hc)
    as [rr [Hp Hrr]].
  assert (Hclose : 0 < close c).
  { destruct (SignalRequest_valid_inv _ Hvalid) as [_ Hall].
    rewrite Forall_forall in Hall.
    destruct (last_nonempty (candles request)) as [c' [Hc' Hin]].
    - now apply SignalRequest_valid_nonempty.
    - rewrite Hc in Hc'. injection Hc' as <-. now apply Hall. }
  exists c. eexists. split; [exact Hc|]. split.
  - unfold predict_signal, try_or_500.
    erewrite mbind_pure_Ok by exact Hp. cbv beta iota.
    erewrite mbind_Ok by exact Ha.
    erewrite mbind_pure_Ok; [reflexivity|].
    unfold response.SignalPrediction_new.
    rewrite Field_ge_le_Ok by discriminate. cbn [py.bind].
    rewrite !Field_gt_float64_Ok by lra. cbn [py.bind].
    reflexivity.
  - cbn. repeat (split; [reflexivity|]). split; [|exact Hag].
    apply (name_reported ra _ _ "execution" 3.0 Hf); [unique_check|].
    unfold checks. do 7 right. now left.
Qed.

(** [predict_signal_without_models] on the window [steady]. *)
Lemma predict_signal_without_models_witness :
  exists last_candle prediction,
    py.last (candles (request_of steady 1000)) = Ok last_candle /\
    predict_signal config.settings
      {| model := None; shadow_model := None;
         model_version := "v1.0.0-placeholder" |}
      "id-1" 2000 2001 3 (request_of steady 1000) __init__ =
    (Returns {| response.success := true;
                response.data := Some prediction;
                response.error := None;
                response.processing_time_ms := 3 |},
     __init__) /\
    response.id prediction = "id-1" /\
    response.exchange prediction = exchange (request_of steady 1000) /\
    response.symbol prediction = symbol (request_of steady 1000) /\
    response.timeframe prediction = timeframe (request_of steady 1000) /\
    response.direction prediction = NEUTRAL /\
    response.confidence prediction = 0.5 /\
    response.entry_price prediction = np.Fin (close last_candle) /\
    response.stop_loss prediction = np.Fin (close last_candle * 0.98) /\
    response.take_profit prediction = [np.Fin (close last_candle * 1.02)] /\
    response.timestamp prediction = 2001%Z /\
    In "Neutral Signal"
       (map name (factors (response.risk_assessment prediction))) /\
    is_shadow_model_agreed (response.risk_assessment prediction) = true.
Proof.
  apply (predict_signal_without_models config.settings
           {| model := None; shadow_model := None;
              model_version := "v1.0.0-placeholder" |}
           "id-1" 2000 2001 3 (request_of steady 1000) __init__).
  - reflexivity.
  - reflexivity.
  - vm_compute. reflexivity.
Defined.

Lemma try_or_500_state {A : Type} (body : method A) (s : RiskAssessor) :
  snd (try_or_500 body s) = snd (body s).
Proof. unfold try_or_500. now destruct (body s) as [[a | e] s']. Qed.

(** X17. [POST /predict] never changes the assessor, whatever the predictor,
    the request and the clock, and whether it answers or fails; it either
    returns a response with [success = True] and a prediction, or raises an
    [HTTPException] with status 500.  [POST /feedback] always answers
    [{"status": "recorded"}] and leaves the history [record_outcome]
    leaves. *)
Theorem endpoints_and_assessor_state (settings : config.Settings)
  (predictor : SignalPredictor) (uuid4 : string) (assess_ms timestamp_ms : Z)
  (processing_time : Q) (request : SignalRequest) (risk_assessor : RiskAssessor)
  (prediction_id : string) (was_correct : bool) :
  snd (predict_signal settings predictor uuid4 assess_ms timestamp_ms
         processing_time request risk_assessor) = risk_assessor /\
  ((exists prediction,
      fst (predict_signal settings predictor uuid4 assess_ms timestamp_ms
             processing_time request risk_assessor) =
      Returns {| response.success := true;
                 response.data := Some prediction;
                 response.error := None;
                 response.processing_time_ms := processing_time |}) \/
   (exists detail,
      fst (predict_signal settings predictor uuid4 assess_ms timestamp_ms
             processing_time request risk_assessor) =
      HTTPException 500 detail)) /\
  record_feedback prediction_id was_correct risk_assessor =
  (Ok [("status", "recorded")],
   snd (record_outcome prediction_id was_correct risk_assessor)) /\
  historical_accuracy
    (snd (record_feedback prediction_id was_correct risk_assessor)) =
  last_n 100 (historical_accuracy risk_assessor ++ [outcome_value was_correct]).
Proof.
  split; [|split; [|split]].
  - unfold predict_signal. rewrite try_or_500_state.
    match goal with |- snd (?body _) = _ => assert (H : preserves_self body) end.
    { repeat first
        [ apply preserves_pure
        | apply preserves_ret
        | apply preserves_assess
        | apply preserves_mbind
        | intros [[[[[[? ?] ?] ?] ?] ?] ?]
        | intro ]. }
    apply H.
  - unfold predict_signal, try_or_500, mbind, pure, ret.
    destruct (predict predictor request)
      as [[[[[[[d conf] entry] stop] tps] rr] agreed] | e];
      [|right; now exists e].
    destruct (assess settings assess_ms request d conf agreed risk_assessor)
      as [[ra | e] s']; [|right; now exists e].
    destruct (response.SignalPrediction_new _ _ _ _ _ _ _ _ _ _ _ _ _)
      as [prediction | e]; [left; now exists prediction|right; now exists e].
  - unfold record_feedback, mbind, ret. now rewrite record_outcome_spec.
  - unfold record_feedback, mbind, ret. now rewrite record_outcome_spec.
Qed.

(** X18. A prediction whose stop-loss is not positive (zero, negative or
    nan) cannot be returned: whatever the assessment, [POST /predict]
    raises an [HTTPException] with status 500 and leaves the assessor
    unchanged. *)
Theorem nonpositive_stop_is_a_500 (settings : config.Settings)
  (predictor : SignalPredictor) (uuid4 : string) (assess_ms timestamp_ms : Z)
  (processing_time : Q) (request : SignalRequest) (risk_assessor : RiskAssessor)
  (direction : SignalDirection) (confidence : Q)
  (entry stop_loss rr_ratio : np.float64) (take_profits : list np.float64)
  (shadow_agreed : bool)
  (Hpredict : predict predictor request =
              Ok (direction, confidence, entry, stop_loss, take_profits,
                  rr_ratio, shadow_agreed))
  (Hstop : np.gt stop_loss (np.Fin 0) = false) :
  exists detail,
    predict_signal settings predictor uuid4 assess_ms timestamp_ms
      processing_time request risk_assessor =
    (HTTPException 500 detail, risk_assessor).
Proof.
  pose proof (preserves_assess settings assess_ms request direction confidence
                shadow_agreed risk_assessor) as Hsame.
  unfold predict_signal, try_or_500.
  erewrite mbind_pure_Ok by exact Hpredict. cbv beta iota.
  unfold mbind at 1.
  destruct (assess settings assess_ms request direction confidence
              shadow_agreed risk_assessor) as [[ra | e] s'];
    cbn [snd] in Hsame; subst s'; [|now exists e].
  unfold mbind, pure, response.SignalPrediction_new.
  destruct (Field_ge_le 0 1 confidence) as [c|e]; [|now exists e].
  cbn [py.bind].
  destruct (response.Field_gt_float64 0 entry) as [en|e]; [|now exists e].
  cbn [py.bind]. rewrite (Field_gt_float64_refuses _ Hstop).
  now exists ValidationError.
Qed.

(** [nonpositive_stop_is_a_500] on a LONG signal over 50 candles with high
    300, low 1 and close 100: the ATR is 299 and the stop 100 - 448.5. *)
Lemma nonpositive_stop_is_a_500_witness :
  exists detail,
    predict_signal config.settings
      {| model := Some (fun _ => Ok [0.9; 0.05; 0.05]);
         shadow_model := Some (fun _ => Ok [0.9; 0.05; 0.05]);
         model_version := "v1.0.0-placeholder" |}
      "id-1" 2000 2001 3
      (request_of (map (fun i => candle (Z.of_nat i * 60000) 100 300 1 100 10)
                       (seq 0 50)) 1000)
      __init__ =
    (HTTPException 500 detail, __init__).
Proof.
  eapply (nonpositive_stop_is_a_500 config.settings
            {| model := Some (fun _ => Ok [0.9; 0.05; 0.05]);
               shadow_model := Some (fun _ => Ok [0.9; 0.05; 0.05]);
               model_version := "v1.0.0-placeholder" |}
            "id-1" 2000 2001 3
            (request_of (map (fun i => candle (Z.of_nat i * 60000) 100 300 1 100 10)
                             (seq 0 50)) 1000)
            __init__).
  - vm_compute. reflexivity.
  - vm_compute. reflexivity.
Defined.

(** ** Windows without candles *)

(** X19. On a request without candles [predict] raises [IndexError] (the
    empty feature array has no second dimension), [assess] raises
    [ZeroDivisionError] (the mean range divides by the number of highs) and
    leaves the assessor unchanged, and [POST /predict] answers 500. *)
Theorem empty_window_raises (settings : config.Settings)
  (predictor : SignalPredictor) (uuid4 : string) (now_ms timestamp_ms : Z)
  (processing_time : Q) (request : SignalRequest) (direction : SignalDirection)
  (confidence : Q) (shadow_agreed : bool) (self : RiskAssessor)
  (Hempty : candles request = []) :
  predict predictor request = Raise IndexError /\
  assess settings now_ms request direction confidence shadow_agreed self =
  (Raise ZeroDivisionError, self) /\
  predict_signal settings predictor uuid4 now_ms timestamp_ms processing_time
    request self = (HTTPException 500 IndexError, self).
Proof.
  assert (Hp : predict predictor request = Raise IndexError)
    by (unfold predict; now rewrite Hempty).
  split; [exact Hp|]. split.
  - unfold assess. cbv zeta. rewrite Hempty.
    assess_step.
    erewrite mbind_pure_Ok by reflexivity. cbv beta iota.
    do 3 assess_step.
    erewrite mbind_Ok by apply detect_drift_spec. cbv beta iota.
    assess_step.
    reflexivity.
  - unfold predict_signal, try_or_500, mbind, pure. now rewrite Hp.
Qed.

(** [empty_window_raises] on a request built without validation. *)
Lemma empty_window_raises_witness :
  predict {| model := None; shadow_model := None;
             model_version := "v1.0.0-placeholder" |} (request_of [] 1000)
  = Raise IndexError /\
  assess config.settings 2000 (request_of [] 1000) LONG 0.9 true __init__ =
  (Raise ZeroDivisionError, __init__) /\
  predict_signal config.settings
    {| model := None; shadow_model := None;
       model_version := "v1.0.0-placeholder" |}
    "id-1" 2000 2001 3 (request_of [] 1000) __init__ =
  (HTTPException 500 IndexError, __init__).
Proof.
  apply (empty_window_raises config.settings
           {| model := None; shadow_model := None;
              model_version := "v1.0.0-placeholder" |}
           "id-1" 2000 2001 3 (request_of [] 1000) LONG 0.9 true __init__).
  reflexivity.
Defined.

(** ** What the candle constructor compares *)

(** X20. [OHLCVData(...)] succeeds exactly when open, high, low and close
    are strictly positive and volume is not negative, and then stores the
    values given: the [high] validator finds no ["low"] among the fields
    validated before it, so how high compares with low has no effect. *)
Theorem OHLCVData_accepts_iff (t : Z) (o h l c v : Q) :
  ((exists cd, OHLCVData_new t o h l c v = Ok cd) <->
   0 < o /\ 0 < h /\ 0 < l /\ 0 < c /\ 0 <= v) /\
  (forall cd, OHLCVData_new t o h l c v = Ok cd -> cd = candle t o h l c v) /\
  (forall data, lookup "low" data = None -> high_must_be_highest h data = Ok h).
Proof.
  split; [split|split].
  - intros [cd H]. unfold OHLCVData_new in H.
    destruct (Field_gt 0 o) as [o'|] eqn:Eo; [|discriminate]. cbn [py.bind] in H.
    destruct (Field_gt 0 h) as [h'|] eqn:Eh; [|discriminate]. cbn [py.bind] in H.
    destruct (high_must_be_highest h' _) as [h''|]; [|discriminate].
    cbn [py.bind] in H.
    destruct (Field_gt 0 l) as [l'|] eqn:El; [|discriminate]. cbn [py.bind] in H.
    destruct (Field_gt 0 c) as [c'|] eqn:Ec; [|discriminate]. cbn [py.bind] in H.
    destruct (Field_ge 0 v) as [v'|] eqn:Ev; [|discriminate].
    apply Field_gt_inv in Eo, Eh, El, Ec. apply Field_ge_inv in Ev. tauto.
  - intros [Ho [Hh [Hl [Hc Hv]]]]. eexists. now apply OHLCVData_new_Ok.
  - intros cd H.
    destruct (Qlt_le_dec 0 o) as [Ho|Ho];
      [|unfold OHLCVData_new, Field_gt in H;
        apply Qltb_ge in Ho; rewrite Ho in H; discriminate].
    unfold OHLCVData_new in H. rewrite (Field_gt_Ok _ _ Ho) in H.
    cbn [py.bind app] in H.
    destruct (Field_gt 0 h) as [h'|] eqn:Eh; [|discriminate].
    apply Field_gt_inv in Eh as [_ ->]. cbn [py.bind] in H.
    rewrite high_must_be_highest_sees_no_low in H. cbn [py.bind] in H.
    destruct (Field_gt 0 l) as [l'|] eqn:El; [|discriminate].
    apply Field_gt_inv in El as [_ ->]. cbn [py.bind] in H.
    destruct (Field_gt 0 c) as [c'|] eqn:Ec; [|discriminate].
    apply Field_gt_inv in Ec as [_ ->]. cbn [py.bind] in H.
    destruct (Field_ge 0 v) as [v'|] eqn:Ev; [|discriminate].
    apply Field_ge_inv in Ev as [_ ->]. cbn [py.bind] in H.
    now injection H as <-.
  - intros data H. unfold high_must_be_highest. now rewrite H.
Qed.
